(** * lerobotlab.convert: a shallow embedding of the conversion orchestrator

    The module [src/lerobotlab/convert.py] is embedded function by function.
    Python objects loaded from the selection document are values of the
    inductive [value]; exceptions are values of [exn]; the filesystem, the
    lines printed through [click.echo] and the calls made to the converter
    collaborators are the three components of [world], threaded through an
    exception-and-state monad [M].  Floating point is IEEE binary64, taken
    from the primitive floats of the kernel. *)

From Stdlib Require Import ZArith List String Ascii Bool Lia.
From Stdlib Require Import Floats DecimalString.
From stdpp Require Import base option countable gmap strings.
Import ListNotations.

Local Open Scope string_scope.
Local Open Scope Z_scope.

(** ** Python strings

    A [str] is modelled by a Rocq [string].  [str.lower] and [str.upper] are
    modelled on the ASCII letters and leave every other character as it is. *)

Module PyStr.

Definition is_upper (c : ascii) : bool :=
  let n := N_of_ascii c in (65 <=? n)%N && (n <=? 90)%N.

Definition is_lower (c : ascii) : bool :=
  let n := N_of_ascii c in (97 <=? n)%N && (n <=? 122)%N.

Definition lower_char (c : ascii) : ascii :=
  if is_upper c then ascii_of_N (N_of_ascii c + 32) else c.

Definition upper_char (c : ascii) : ascii :=
  if is_lower c then ascii_of_N (N_of_ascii c - 32) else c.

Fixpoint lower (s : string) : string :=
  match s with
  | EmptyString => EmptyString
  | String c r => String (lower_char c) (lower r)
  end.

Fixpoint upper (s : string) : string :=
  match s with
  | EmptyString => EmptyString
  | String c r => String (upper_char c) (upper r)
  end.

(** [sep.join(l)] on a list of strings. *)
Fixpoint join (sep : string) (l : list string) : string :=
  match l with
  | [] => ""
  | [x] => x
  | x :: r => x +:+ sep +:+ join sep r
  end.

(** [x in l] on a list of strings. *)
Definition mem (x : string) (l : list string) : bool :=
  existsb (String.eqb x) l.

(** [sub in s] on strings. *)
Fixpoint contains (sub s : string) : bool :=
  String.prefix sub s ||
  match s with
  | EmptyString => false
  | String _ r => contains sub r
  end.

(** The characters of a string, each as a string of length one. *)
Fixpoint chars (s : string) : list string :=
  match s with
  | EmptyString => []
  | String c r => String c EmptyString :: chars r
  end.

(** [s.split(sep)] for a separator of one character. *)
Fixpoint split (sep : ascii) (s : string) : list string :=
  match s with
  | EmptyString => [""]
  | String c r =>
      if Ascii.eqb c sep then "" :: split sep r
      else match split sep r with
           | [] => [String c EmptyString]
           | x :: xs => String c x :: xs
           end
  end.

(** [str(n)] for an integer. *)
Definition of_nat (n : nat) : string := NilZero.string_of_uint (Nat.to_uint n).

Definition of_Z (z : Z) : string :=
  match z with
  | Z0 => "0"
  | Zpos p => NilZero.string_of_uint (Pos.to_uint p)
  | Zneg p => "-" +:+ NilZero.string_of_uint (Pos.to_uint p)
  end.

End PyStr.

Example lower_mixed : PyStr.lower "VJEPA2-ac" = "vjepa2-ac".
Proof. reflexivity. Qed.

Example split_path : PyStr.split "/" "a//b/" = ["a"; ""; "b"; ""].
Proof. reflexivity. Qed.

Example join_two : PyStr.join ", " ["droid"; "vjepa2-ac"] = "droid, vjepa2-ac".
Proof. reflexivity. Qed.

(** ** Python floats

    A Python [float] is an IEEE binary64 number: the kernel's [float].
    [int / int] is the correctly rounded quotient of the two integers
    ([long_true_divide]), which [SFdiv] computes on the integers taken as
    unnormalised mantissas; an infinite result is Python's [OverflowError]. *)

Module PyFloat.

Definition SF_of_Z (z : Z) : spec_float :=
  match z with
  | Z0 => S754_zero false
  | Zpos p => S754_finite false p 0
  | Zneg p => S754_finite true p 0
  end.

(** [a / b] for integers [a] and [b], [b] not zero; [None] on overflow. *)
Definition int_truediv (a b : Z) : option float :=
  match SFdiv prec emax (SF_of_Z a) (SF_of_Z b) with
  | S754_infinity _ => None
  | q => Some (SF2Prim q)
  end.

(** [float(n)] for a small integer literal. *)
Definition of_int (n : Z) : float :=
  SF2Prim (binary_normalize prec emax n 0 false).

Definition is_zero (x : float) : bool :=
  match Prim2SF x with
  | S754_zero _ => true
  | _ => false
  end.

(** Rounding of the rational [num / den], [den > 0], to the nearest integer,
    ties to even. *)
Definition round_half_even (num den : Z) : Z :=
  let q := num / den in
  let r := num mod den in
  match 2 * r ?= den with
  | Lt => q
  | Gt => q + 1
  | Eq => if Z.even q then q else q + 1
  end.

Fixpoint zeros (n : nat) : string :=
  match n with
  | O => ""
  | S k => "0" +:+ zeros k
  end.

(** The digits of [n / 10^d] with [d] digits after the point. *)
Definition render (n : Z) (d : nat) : string :=
  let p := 10 ^ Z.of_nat d in
  let ip := PyStr.of_Z (n / p) in
  match d with
  | O => ip
  | _ =>
      let fp := PyStr.of_Z (n mod p) in
      ip +:+ "." +:+ zeros (d - String.length fp) +:+ fp
  end.

Definition sign_str (s : bool) : string := if s then "-" else "".

(** [format(x, '.<d>f')]: the exact binary value, correctly rounded to [d]
    decimals. *)
Definition format_fixed (d : nat) (x : float) : string :=
  match Prim2SF x with
  | S754_nan => "nan"
  | S754_infinity s => sign_str s +:+ "inf"
  | S754_zero s => sign_str s +:+ render 0 d
  | S754_finite s m e =>
      let scaled := Zpos m * 10 ^ Z.of_nat d in
      let n := match e with
               | Zneg k => round_half_even scaled (2 ^ Zpos k)
               | _ => scaled * 2 ^ e
               end in
      sign_str s +:+ render n d
  end.

End PyFloat.

Example format_half_even :
  (PyFloat.format_fixed 0 0.5, PyFloat.format_fixed 0 1.5,
   PyFloat.format_fixed 1 (PyFloat.of_int 60)) = ("0", "2", "60.0").
Proof. vm_compute. reflexivity. Qed.

Example truediv_big :
  PyFloat.int_truediv (2 ^ 70 + 3) 1000
  = Some (SF2Prim (S754_finite false 4611686018427388 8)).
Proof. vm_compute. reflexivity. Qed.

(** ** Values and exceptions *)

#[local] Set Warnings "-register-all".

(** The objects a selection document or a converter result is made of. *)
Inductive value :=
| VNone
| VBool (b : bool)
| VInt (z : Z)
| VFloat (f : float)
| VStr (s : string)
| VList (l : list value)
| VDict (d : list (string * value)).

Inductive os_error := EEXIST | ENOENT | ENOTDIR | EACCES.

(** Exceptions, all of them subclasses of [Exception].  [ClickException]
    carries its message and the exception that was being handled when it was
    raised (Python's [__context__]).  [Raised] stands for any other exception
    a collaborator raises. *)
Inductive exn :=
| KeyError (key : string)
| TypeError (msg : string)
| AttributeError (msg : string)
| OverflowError (msg : string)
| OSError (errno : os_error) (filename : string)
| ClickException (message : string) (context : option exn)
| Raised (msg : string).

Definition strerror (e : os_error) : string :=
  match e with
  | EEXIST => "[Errno 17] File exists"
  | ENOENT => "[Errno 2] No such file or directory"
  | ENOTDIR => "[Errno 20] Not a directory"
  | EACCES => "[Errno 13] Permission denied"
  end.

(** [str(e)], in CPython's wording. *)
Definition str_exn (e : exn) : string :=
  match e with
  | KeyError key => "'" +:+ key +:+ "'"
  | TypeError msg => msg
  | AttributeError msg => msg
  | OverflowError msg => msg
  | OSError errno filename => strerror errno +:+ ": '" +:+ filename +:+ "'"
  | ClickException message _ => message
  | Raised msg => msg
  end.

Module Py.

Definition type_name (v : value) : string :=
  match v with
  | VNone => "NoneType"
  | VBool _ => "bool"
  | VInt _ => "int"
  | VFloat _ => "float"
  | VStr _ => "str"
  | VList _ => "list"
  | VDict _ => "dict"
  end.

(** [d.get(key)] on the entries of a dict. *)
Fixpoint lookup (key : string) (d : list (string * value)) : option value :=
  match d with
  | [] => None
  | (k, v) :: r => if String.eqb k key then Some v else lookup key r
  end.

(** [d.get(key, default)]. *)
Definition get (d : list (string * value)) (key : string) (default : value) : value :=
  match lookup key d with
  | Some v => v
  | None => default
  end.

(** [v.get(key)] on an arbitrary object. *)
Definition get_attr (v : value) (key : string) : exn + value :=
  match v with
  | VDict d => inr (get d key VNone)
  | _ => inl (AttributeError ("'" +:+ type_name v +:+ "' object has no attribute 'get'"))
  end.

(** [v[key]] for a string key. *)
Definition getitem (v : value) (key : string) : exn + value :=
  match v with
  | VDict d =>
      match lookup key d with
      | Some x => inr x
      | None => inl (KeyError key)
      end
  | VList _ => inl (TypeError "list indices must be integers or slices, not str")
  | VStr _ => inl (TypeError "string indices must be integers, not 'str'")
  | _ => inl (TypeError ("'" +:+ type_name v +:+ "' object is not subscriptable"))
  end.

(** [v == s] for a string [s]. *)
Definition eq_str (v : value) (s : string) : bool :=
  match v with
  | VStr t => String.eqb t s
  | _ => false
  end.

(** [key in v] for a string key. *)
Definition contains (key : string) (v : value) : exn + bool :=
  match v with
  | VDict d => inr (bool_decide (is_Some (lookup key d)))
  | VList l => inr (existsb (fun x => eq_str x key) l)
  | VStr s => inr (PyStr.contains key s)
  | _ => inl (TypeError ("argument of type '" +:+ type_name v +:+ "' is not iterable"))
  end.

(** [len(v)]. *)
Definition len (v : value) : exn + nat :=
  match v with
  | VList l => inr (length l)
  | VDict d => inr (length d)
  | VStr s => inr (String.length s)
  | _ => inl (TypeError ("object of type '" +:+ type_name v +:+ "' has no len()"))
  end.

(** The items [for x in v] goes through. *)
Definition iter (v : value) : exn + list value :=
  match v with
  | VList l => inr l
  | VDict d => inr (map (fun kv => VStr (fst kv)) d)
  | VStr s => inr (map VStr (PyStr.chars s))
  | _ => inl (TypeError ("'" +:+ type_name v +:+ "' object is not iterable"))
  end.

(** The strings of a list of objects, or the position and type of the first
    one that is not a string. *)
Fixpoint strings_from (i : nat) (l : list value) : exn + list string :=
  match l with
  | [] => inr []
  | VStr s :: r =>
      match strings_from (S i) r with
      | inl e => inl e
      | inr ss => inr (s :: ss)
      end
  | v :: _ =>
      inl (TypeError ("sequence item " +:+ PyStr.of_nat i +:+ ": expected str instance, "
                      +:+ type_name v +:+ " found"))
  end.

(** [sep.join(v)]. *)
Definition join (sep : string) (v : value) : exn + string :=
  match iter v with
  | inl _ => inl (TypeError "can only join an iterable")
  | inr items =>
      match strings_from 0 items with
      | inl e => inl e
      | inr ss => inr (PyStr.join sep ss)
      end
  end.

(** Truth value of an object, as [if v:] tests it. *)
Definition truthy (v : value) : bool :=
  match v with
  | VNone => false
  | VBool b => b
  | VInt z => negb (z =? 0)
  | VFloat f => negb (PyFloat.is_zero f)
  | VStr s => negb (String.eqb s "")
  | VList l => negb (bool_decide (l = []))
  | VDict d => negb (bool_decide (d = []))
  end.

(** [v / n] for an integer literal [n], not zero. *)
Definition truediv_int (v : value) (n : Z) : exn + float :=
  let int_case z :=
    match PyFloat.int_truediv z n with
    | Some q => inr q
    | None => inl (OverflowError "integer division result too large for a float")
    end in
  match v with
  | VInt z => int_case z
  | VBool b => int_case (if b then 1 else 0)
  | VFloat f => inr (PrimFloat.div f (PyFloat.of_int n))
  | _ => inl (TypeError ("unsupported operand type(s) for /: '" +:+ type_name v
                         +:+ "' and 'int'"))
  end.

End Py.

(** ** Paths and the filesystem

    A [pathlib.Path] on POSIX is its root and the components of its tail.
    The filesystem maps a path to the node found there; two paths that differ
    as paths name different nodes (no symbolic links, no [..] resolution). *)

Record path := Path { root : string; tail : list string }.

#[global] Instance path_eq_dec : EqDecision path.
Proof. solve_decision. Defined.

#[global] Instance path_countable : Countable path :=
  inj_countable' (fun p => (root p, tail p)) (fun rt => Path (fst rt) (snd rt))
    (fun p => match p with Path _ _ => eq_refl end).

Record node := Node { is_dir : bool; readable : bool; writable : bool }.

Module PyPath.

(** [posixpath.splitroot]: the root, and what follows it. *)
Definition splitroot (p : string) : string * string :=
  match p with
  | String "/" (String "/" (String "/" _ as r)) => ("/", String "/" r)
  | String "/" (String "/" r) => ("//", r)
  | String "/" r => ("/", r)
  | _ => ("", p)
  end.

Definition is_part (x : string) : bool :=
  negb (String.eqb x "") && negb (String.eqb x ".").

(** [Path(s)]. *)
Definition of_str (s : string) : path :=
  let '(r, rel) := splitroot s in
  Path r (List.filter is_part (PyStr.split "/" rel)).

(** [str(p)]. *)
Definition to_str (p : path) : string :=
  match root p, tail p with
  | "", [] => "."
  | r, t => r +:+ PyStr.join "/" t
  end.

(** [p.parent]. *)
Definition parent (p : path) : path :=
  match tail p with
  | [] => p
  | t => Path (root p) (removelast t)
  end.

(** [p.name]. *)
Definition name (p : path) : string := List.last (tail p) "".

(** [p / child] for a child of one component. *)
Definition child (p : path) (c : string) : path :=
  Path (root p) (tail p ++ [c]).

End PyPath.

Example of_str_abs : PyPath.of_str "/data//out/./x" = Path "/" ["data"; "out"; "x"].
Proof. reflexivity. Qed.

Example of_str_rel : PyPath.parent (PyPath.of_str "out") = Path "" [].
Proof. reflexivity. Qed.

Example to_str_cwd : PyPath.to_str (PyPath.of_str "") = ".".
Proof. reflexivity. Qed.

Module Fs.

(** [p.exists()]. *)
Definition exists_ (fs : gmap path node) (p : path) : bool :=
  bool_decide (is_Some (fs !! p)).

(** [p.is_dir()]. *)
Definition isdir (fs : gmap path node) (p : path) : bool :=
  match fs !! p with
  | Some n => is_dir n
  | None => false
  end.

(** [os.access(p, os.W_OK)] and [os.access(p, os.R_OK)]. *)
Definition access_w (fs : gmap path node) (p : path) : bool :=
  match fs !! p with
  | Some n => writable n
  | None => false
  end.

Definition access_r (fs : gmap path node) (p : path) : bool :=
  match fs !! p with
  | Some n => readable n
  | None => false
  end.

Definition new_dir : node := Node true true true.

(** Some proper ancestor of [p] is there and is not a directory. *)
Definition blocked (fs : gmap path node) (p : path) : bool :=
  existsb
    (fun k => match fs !! Path (root p) (firstn k (tail p)) with
              | Some n => negb (is_dir n)
              | None => false
              end)
    (seq 0 (length (tail p))).

(** [os.mkdir(p)]. *)
Definition os_mkdir (fs : gmap path node) (p : path) : os_error + gmap path node :=
  match fs !! p with
  | Some _ => inl EEXIST
  | None =>
      if blocked fs p then inl ENOTDIR
      else
        match fs !! PyPath.parent p with
        | None => inl ENOENT
        | Some n =>
            if negb (writable n) then inl EACCES
            else inr (<[p := new_dir]> fs)
        end
  end.

(** [p.mkdir(parents=False, exist_ok=True)]. *)
Definition mkdir_exist_ok (fs : gmap path node) (p : path) : exn + gmap path node :=
  match os_mkdir fs p with
  | inr fs' => inr fs'
  | inl ENOENT => inl (OSError ENOENT (PyPath.to_str p))
  | inl e => if isdir fs p then inr fs else inl (OSError e (PyPath.to_str p))
  end.

(** [p.mkdir(parents=True, exist_ok=True)], by recursion on the tail of the
    path taken from its last component: a missing parent is created first,
    and the path that is its own parent is not retried. *)
Fixpoint mkdir_parents_rev (r : string) (rtail : list string) (fs : gmap path node)
  : exn + gmap path node :=
  let p := Path r (rev rtail) in
  match os_mkdir fs p with
  | inr fs' => inr fs'
  | inl ENOENT =>
      match rtail with
      | [] => inl (OSError ENOENT (PyPath.to_str p))
      | _ :: rtail' =>
          match mkdir_parents_rev r rtail' fs with
          | inl e => inl e
          | inr fs1 => mkdir_exist_ok fs1 p
          end
      end
  | inl e => if isdir fs p then inr fs else inl (OSError e (PyPath.to_str p))
  end.

Definition mkdir_parents (fs : gmap path node) (p : path) : exn + gmap path node :=
  mkdir_parents_rev (root p) (rev (tail p)) fs.

End Fs.

(** A directory tree with a writable working directory and a data directory. *)
Definition sample_fs : gmap path node :=
  <[Path "" [] := Node true true true]>
  (<[Path "" ["data"] := Node true true true]> ∅).

(** Closes an equation between closed terms by evaluating its two sides. *)
Ltac by_evaluation :=
  lazymatch goal with
  | |- _ = ?rhs => vm_cast_no_check (@eq_refl _ rhs)
  end.

Example mkdir_nested :
  match Fs.mkdir_parents sample_fs (PyPath.of_str "out/run1") with
  | inr fs' => (Fs.isdir fs' (Path "" ["out"]), Fs.isdir fs' (Path "" ["out"; "run1"]))
  | inl _ => (false, false)
  end = (true, true).
Proof. vm_compute. reflexivity. Qed.

Example mkdir_again :
  Fs.mkdir_parents sample_fs (PyPath.of_str "data") = inr sample_fs.
Proof. by_evaluation. Qed.

(** ** The world: filesystem, printed lines, converter calls *)

(** The two converter classes, each constructed with its [verbose] flag. *)
Inductive converter :=
| DROIDConverter (verbose : bool)
| VJEPA2ACConverter (verbose : bool).

(** One line per [click.echo] statement of [convert_datasets], with the
    objects its f-string formats. *)
Inductive line :=
| Created_output_directory (output_dir : path)
| No_input_path_provided
| Downloading_datasets
| Converting_n_datasets (n : nat) (format_upper : string)
| Total_episodes (total_episodes : value)
| Converting_ith_dataset (i n : nat) (repo_id : value)
| Selected_videos (joined : string)
| Converting_dataset (repo_id : value)
| Output_file (output_dir : path)
| Cross (message : value)
| Tick (message : value)
| Episodes_converted (episodes_converted : value)
| Converted_successfully (repo_id : value)
| All_converted (n : nat) (format_upper : string)
| Output_directory (output_dir : path)
| Cleaning_up.

(** A call [converter.convert_dataset(repo_id, selected_videos, input_dir,
    output_dir)] and what it returned or raised. *)
Record call := Call {
  call_converter : converter;
  call_repo_id : value;
  call_selected_videos : value;
  call_input_dir : path;
  call_output_dir : path;
  call_outcome : exn + value
}.

Record world := World {
  fs : gmap path node;
  out : list line;
  calls : list call
}.

(** A computation that reads and changes the world and returns or raises;
    what it did before raising stays done. *)
Definition M (A : Type) : Type := world -> (exn + A) * world.

Definition ret {A} (a : A) : M A := fun w => (inr a, w).

Definition raise {A} (e : exn) : M A := fun w => (inl e, w).

Definition bind {A B} (c : M A) (k : A -> M B) : M B :=
  fun w =>
    match c w with
    | (inr a, w') => k a w'
    | (inl e, w') => (inl e, w')
    end.

(** [try: c  except Exception as e: h e]. *)
Definition try_except {A} (c : M A) (h : exn -> M A) : M A :=
  fun w =>
    match c w with
    | (inr a, w') => (inr a, w')
    | (inl e, w') => h e w'
    end.

(** An operation on objects, which may raise. *)
Definition lift {A} (r : exn + A) : M A := fun w => (r, w).

Declare Scope py_scope.
Delimit Scope py_scope with py.
Notation "x <- c ;; k" := (bind c (fun x => k))
  (at level 100, c at next level, k at level 200, right associativity) : py_scope.
Notation "c ;; k" := (bind c (fun _ => k))
  (at level 100, k at level 200, right associativity) : py_scope.
Local Open Scope py_scope.

Definition echo (l : line) : M unit :=
  fun w => (inr tt, World (fs w) (out w ++ [l]) (calls w)).

Definition when (b : bool) (c : M unit) : M unit := if b then c else ret tt.

Definition path_exists (p : path) : M bool := fun w => (inr (Fs.exists_ (fs w) p), w).

Definition path_is_dir (p : path) : M bool := fun w => (inr (Fs.isdir (fs w) p), w).

Definition os_access_w (p : path) : M bool := fun w => (inr (Fs.access_w (fs w) p), w).

Definition os_access_r (p : path) : M bool := fun w => (inr (Fs.access_r (fs w) p), w).

Definition mkdir_parents_exist_ok (p : path) : M unit :=
  fun w =>
    match Fs.mkdir_parents (fs w) p with
    | inr fs' => (inr tt, World fs' (out w) (calls w))
    | inl e => (inl e, w)
    end.

(** ** The Format Registry *)

Definition get_supported_formats : list string := ["droid"; "vjepa2-ac"].

(** [repr] of the list of supported formats. *)
Definition repr_supported_formats : string :=
  "[" +:+ PyStr.join ", " (map (fun f => "'" +:+ f +:+ "'") get_supported_formats) +:+ "]".

Definition validate_format (format : string) : exn + string :=
  let format_lower := PyStr.lower format in
  let supported := get_supported_formats in
  if negb (PyStr.mem format_lower supported) then
    inl (ClickException
           ("Unsupported format '" +:+ format +:+ "'. Supported formats: "
            +:+ PyStr.join ", " supported) None)
  else inr format_lower.

Definition _get_converter (format : string) (verbose : bool) : exn + converter :=
  if String.eqb format "droid" then inr (DROIDConverter verbose)
  else if String.eqb format "vjepa2-ac" then inr (VJEPA2ACConverter verbose)
  else inl (ClickException
              ("Unsupported format: " +:+ format +:+ ". Supported formats: "
               +:+ repr_supported_formats) None).

(** ** The Path Validator *)

Definition reraise_click (prefix : string) (e : exn) : M path :=
  match e with
  | ClickException _ _ => raise e
  | _ => raise (ClickException (prefix +:+ str_exn e) (Some e))
  end.

Definition validate_output_path (output_path : string) : M path :=
  try_except
    (let path := PyPath.of_str output_path in
     let parent := PyPath.parent path in
     ex <- path_exists parent ;;
     (if negb ex then
        raise (ClickException
                 ("Parent directory does not exist: " +:+ PyPath.to_str parent) None)
      else ret tt) ;;
     ok <- os_access_w parent ;;
     (if negb ok then
        raise (ClickException
                 ("No write permission for directory: " +:+ PyPath.to_str parent) None)
      else ret tt) ;;
     ret path)
    (reraise_click "Invalid output path: ").

Definition validate_input_path (input_path : string) : M path :=
  try_except
    (let path := PyPath.of_str input_path in
     ex <- path_exists path ;;
     (if negb ex then
        raise (ClickException ("Input directory does not exist: " +:+ input_path) None)
      else ret tt) ;;
     d <- path_is_dir path ;;
     (if negb d then
        raise (ClickException ("Input path is not a directory: " +:+ input_path) None)
      else ret tt) ;;
     ok <- os_access_r path ;;
     (if negb ok then
        raise (ClickException ("No read permission for directory: " +:+ input_path) None)
      else ret tt) ;;
     ret path)
    (reraise_click "Invalid input path: ").

(** ** The Estimation Helper *)

Definition estimate_conversion_time (selection_data : list (string * value))
  : exn + option string :=
  let metadata := Py.get selection_data "metadata" (VDict []) in
  match Py.get_attr metadata "total_frames" with
  | inl e => inl e
  | inr total_frames =>
      if Py.truthy total_frames then
        match Py.truediv_int total_frames 1000 with
        | inl e => inl e
        | inr estimated_seconds =>
            if PrimFloat.ltb estimated_seconds (PyFloat.of_int 60) then
              inr (Some ("~" +:+ PyFloat.format_fixed 0 estimated_seconds +:+ " seconds"))
            else if PrimFloat.ltb estimated_seconds (PyFloat.of_int 3600) then
              inr (Some ("~" +:+ PyFloat.format_fixed 1
                                   (PrimFloat.div estimated_seconds (PyFloat.of_int 60))
                         +:+ " minutes"))
            else
              inr (Some ("~" +:+ PyFloat.format_fixed 1
                                   (PrimFloat.div estimated_seconds (PyFloat.of_int 3600))
                         +:+ " hours"))
        end
      else inr None
  end.

Example estimate_single_dataset :
  estimate_conversion_time [("metadata", VDict [("total_frames", VInt 1997)])]
  = inr (Some "~2 seconds").
Proof. vm_compute. reflexivity. Qed.

(** ** The Conversion Orchestrator *)

(** The value of the [format] parameter when the caller gives none. *)
Definition default_format : string := "hdf5".

Section Orchestrator.

(** The converter classes are imported from modules outside this one.  What
    [convert_dataset] returns or raises, and what it does to the filesystem,
    is left to the collaborator. *)
Variable convert_dataset :
  converter -> value -> value -> path -> path ->
  gmap path node -> (exn + value) * gmap path node.

(** [converter.convert_dataset(repo_id, selected_videos, input_dir,
    output_dir)], recorded in the world. *)
Definition call_convert_dataset (c : converter) (repo_id selected_videos : value)
    (input_dir output_dir : path) : M value :=
  fun w =>
    let '(r, fs') := convert_dataset c repo_id selected_videos input_dir output_dir (fs w) in
    (r, World fs' (out w)
          (calls w ++ [Call c repo_id selected_videos input_dir output_dir r])).

(** The body of the loop, for the dataset numbered [i]. *)
Definition process_dataset (datasets : value) (format : string) (verbose : bool)
    (input_dir output_dir : path) (i : nat) (dataset : value) : M unit :=
  repo_id <- lift (Py.getitem dataset "repo_id") ;;
  selected_videos <- lift (Py.getitem dataset "selected_videos") ;;
  (if verbose then
     n <- lift (Py.len datasets) ;;
     echo (Converting_ith_dataset i n repo_id) ;;
     joined <- lift (Py.join ", " selected_videos) ;;
     echo (Selected_videos joined)
   else ret tt) ;;
  converter <- lift (_get_converter format verbose) ;;
  echo (Converting_dataset repo_id) ;;
  echo (Output_file output_dir) ;;
  result <- call_convert_dataset converter repo_id selected_videos input_dir output_dir ;;
  status <- lift (Py.getitem result "status") ;;
  (if Py.eq_str status "error" then
     message <- lift (Py.getitem result "message") ;;
     echo (Cross message)
   else if verbose then
     message <- lift (Py.getitem result "message") ;;
     echo (Tick message) ;;
     has <- lift (Py.contains "episodes_converted" result) ;;
     (if has then
        episodes <- lift (Py.getitem result "episodes_converted") ;;
        echo (Episodes_converted episodes)
      else ret tt)
   else ret tt) ;;
  when verbose (echo (Converted_successfully repo_id)).

(** [for i, dataset in enumerate(items, i): ...]. *)
Fixpoint process_datasets (datasets : value) (format : string) (verbose : bool)
    (input_dir output_dir : path) (i : nat) (items : list value) : M unit :=
  match items with
  | [] => ret tt
  | dataset :: rest =>
      process_dataset datasets format verbose input_dir output_dir i dataset ;;
      process_datasets datasets format verbose input_dir output_dir (S i) rest
  end.

(** The input directory: under the output directory when no input path is
    given, and the given path otherwise, which has to exist. *)
Definition resolve_input_dir (output_dir : path) (input_path : option string)
    (verbose : bool) : M path :=
  match input_path with
  | None =>
      when verbose (echo No_input_path_provided) ;;
      let input_dir := PyPath.child output_dir "temp_downloads" in
      echo Downloading_datasets ;;
      ret input_dir
  | Some ip =>
      let input_dir := PyPath.of_str ip in
      ex <- path_exists input_dir ;;
      if negb ex then
        raise (ClickException ("Input directory does not exist: " +:+ ip) None)
      else ret input_dir
  end.

(** The statements inside the [try] of [convert_datasets]. *)
Definition convert_datasets_body (selection_data : list (string * value))
    (output_path : string) (input_path : option string) (format : string)
    (verbose : bool) : M unit :=
  let output_dir := PyPath.of_str output_path in
  mkdir_parents_exist_ok output_dir ;;
  when verbose (echo (Created_output_directory output_dir)) ;;
  input_dir <- resolve_input_dir output_dir input_path verbose ;;
  let datasets := Py.get selection_data "datasets" (VList []) in
  (if verbose then
     let metadata := Py.get selection_data "metadata" (VDict []) in
     n <- lift (Py.len datasets) ;;
     echo (Converting_n_datasets n (PyStr.upper format)) ;;
     has <- lift (Py.contains "total_episodes" metadata) ;;
     if has then
       total <- lift (Py.getitem metadata "total_episodes") ;;
       echo (Total_episodes total)
     else ret tt
   else ret tt) ;;
  items <- lift (Py.iter datasets) ;;
  process_datasets datasets format verbose input_dir output_dir 1 items ;;
  n <- lift (Py.len datasets) ;;
  echo (All_converted n (PyStr.upper format)) ;;
  echo (Output_directory output_dir) ;;
  (if bool_decide (input_path = None)
      && String.eqb (PyPath.name input_dir) "temp_downloads"
   then when verbose (echo Cleaning_up)
   else ret tt).

Definition convert_datasets (selection_data : list (string * value))
    (output_path : string) (input_path : option string) (format : string)
    (verbose : bool) : M unit :=
  try_except
    (convert_datasets_body selection_data output_path input_path format verbose)
    (fun e => raise (ClickException ("Conversion failed: " +:+ str_exn e) (Some e))).

End Orchestrator.

(** A converter stub that reports success and leaves the filesystem alone. *)
Definition stub_ok : converter -> value -> value -> path -> path ->
    gmap path node -> (exn + value) * gmap path node :=
  fun _ _ _ _ _ fs =>
    (inr (VDict [("status", VStr "ok"); ("message", VStr "done");
                 ("episodes_converted", VInt 2)]), fs).

(** A converter stub that reports a per-dataset failure. *)
Definition stub_error : converter -> value -> value -> path -> path ->
    gmap path node -> (exn + value) * gmap path node :=
  fun _ _ _ _ _ fs =>
    (inr (VDict [("status", VStr "error"); ("message", VStr "no episodes")]), fs).

Definition entry (repo_id : string) (videos : list string) : value :=
  VDict [("repo_id", VStr repo_id); ("selected_videos", VList (map VStr videos))].

Definition two_datasets : list (string * value) :=
  [("datasets", VList [entry "a" ["x"]; entry "b" ["y"]])].

Definition world0 : world := World sample_fs [] [].

Example run_two_datasets_ok :
  let '(r, w) := convert_datasets stub_ok two_datasets "out" None "droid" false world0 in
  (r, length (calls w), out w, Fs.isdir (fs w) (Path "" ["out"]))
  = (inr tt, 2%nat,
     [Downloading_datasets;
      Converting_dataset (VStr "a"); Output_file (Path "" ["out"]);
      Converting_dataset (VStr "b"); Output_file (Path "" ["out"]);
      All_converted 2 "DROID"; Output_directory (Path "" ["out"])],
     true).
Proof. vm_compute. reflexivity. Qed.

(** * Properties *)

(** ** The Format Registry *)

Lemma mem_In (x : string) (l : list string) : PyStr.mem x l = true <-> In x l.
Proof.
  unfold PyStr.mem. rewrite existsb_exists. split.
  - intros (y & Hy & Heq). apply String.eqb_eq in Heq. now subst.
  - intros H. exists x. split; [exact H | apply String.eqb_refl].
Qed.

Lemma mem_not_In (x : string) (l : list string) : PyStr.mem x l = false <-> ~ In x l.
Proof.
  rewrite <- mem_In. destruct (PyStr.mem x l); split; intros; congruence.
Qed.

(** C6.  A format whose lower-case form is one of the supported formats is
    accepted and returned in lower case; every other string is refused with a
    [ClickException] whose message names the string and lists the two
    supported formats. *)
Theorem validate_format_spec (f : string) :
  get_supported_formats = ["droid"; "vjepa2-ac"] /\
  (In (PyStr.lower f) get_supported_formats ->
   validate_format f = inr (PyStr.lower f)) /\
  (~ In (PyStr.lower f) get_supported_formats ->
   validate_format f =
   inl (ClickException
          ("Unsupported format '" +:+ f +:+ "'. Supported formats: droid, vjepa2-ac")
          None)).
Proof.
  split; [reflexivity |]. unfold validate_format. split; intros H.
  - apply mem_In in H. now rewrite H.
  - apply mem_not_In in H. now rewrite H.
Qed.

Lemma validate_format_spec_witness :
  validate_format "DROID" = inr "droid" /\
  validate_format "VJepa2-AC" = inr "vjepa2-ac" /\
  validate_format "hdf5" =
  inl (ClickException "Unsupported format 'hdf5'. Supported formats: droid, vjepa2-ac" None).
Proof.
  split; [| split].
  - apply (proj1 (proj2 (validate_format_spec "DROID"))). simpl. auto.
  - apply (proj1 (proj2 (validate_format_spec "VJepa2-AC"))). simpl. auto.
  - apply (proj2 (proj2 (validate_format_spec "hdf5"))). simpl.
    intros [H | [H | []]]; discriminate H.
Defined.

(** The factory agrees with the registry on strings already in lower case,
    and compares exactly: it does not fold case. *)
Lemma _get_converter_supported (format : string) (verbose : bool) :
  In format get_supported_formats <->
  exists c, _get_converter format verbose = inr c.
Proof.
  unfold _get_converter, get_supported_formats. split.
  - intros [<- | [<- | []]]; simpl; eauto.
  - intros [c H].
    destruct (String.eqb_spec format "droid") as [-> | _]; [simpl; auto |].
    destruct (String.eqb_spec format "vjepa2-ac") as [-> | _]; [simpl; auto |].
    discriminate H.
Qed.

Lemma _get_converter_unsupported (format : string) (verbose : bool) :
  ~ In format get_supported_formats ->
  _get_converter format verbose =
  inl (ClickException
         ("Unsupported format: " +:+ format
          +:+ ". Supported formats: ['droid', 'vjepa2-ac']") None).
Proof.
  intros H. unfold _get_converter.
  destruct (String.eqb_spec format "droid") as [-> | _]; [exfalso; apply H; simpl; auto |].
  destruct (String.eqb_spec format "vjepa2-ac") as [-> | _]; [exfalso; apply H; simpl; auto |].
  reflexivity.
Qed.

Example _get_converter_upper_case :
  validate_format "DROID" = inr "droid" /\
  exists m, _get_converter "DROID" false = inl (ClickException m None).
Proof. split; [reflexivity | eexists; reflexivity]. Qed.

(** ** The Estimation Helper *)

Lemma truthy_int (n : Z) : Py.truthy (VInt n) = true <-> n <> 0.
Proof.
  simpl. destruct (Z.eqb_spec n 0); simpl; split; intros; congruence.
Qed.




(** The buckets at their two boundaries, and the sample of the test setup
    with 696391 frames. *)
Example estimate_boundaries :
  map (fun n => estimate_conversion_time [("metadata", VDict [("total_frames", VInt n)])])
      [500; 59999; 60000; 696391; 3599999; 3600000]
  = map (fun s => inr (Some s))
      ["~0 seconds"; "~60 seconds"; "~1.0 minutes"; "~11.6 minutes";
       "~60.0 minutes"; "~1.0 hours"].
Proof. vm_compute. reflexivity. Qed.

(** A document without [metadata] gets no estimate either. *)
Example estimate_no_metadata : estimate_conversion_time [("datasets", VList [])] = inr None.
Proof. reflexivity. Qed.

(** ** The Path Validator *)

(** C8.  [validate_output_path] raises a [ClickException] exactly when the
    parent of the path does not exist or is not writable; otherwise it returns
    the path, whether or not the path itself exists.  In both cases the world
    is left as it was. *)
Theorem validate_output_path_spec (output_path : string) (w : world) :
  let path := PyPath.of_str output_path in
  let parent := PyPath.parent path in
  snd (validate_output_path output_path w) = w /\
  (Fs.exists_ (fs w) parent = true /\ Fs.access_w (fs w) parent = true <->
   fst (validate_output_path output_path w) = inr path) /\
  (Fs.exists_ (fs w) parent = false \/ Fs.access_w (fs w) parent = false <->
   exists message, fst (validate_output_path output_path w)
                   = inl (ClickException message None)).
Proof.
  intros path parent.
  unfold validate_output_path, try_except, bind, path_exists, os_access_w, raise, ret.
  fold path. fold parent. cbn -[PyPath.of_str PyPath.parent PyPath.to_str].
  destruct (Fs.exists_ (fs w) parent) eqn:Hex;
    cbn -[PyPath.of_str PyPath.parent PyPath.to_str];
    [destruct (Fs.access_w (fs w) parent) eqn:Hw;
     cbn -[PyPath.of_str PyPath.parent PyPath.to_str] |].
  - split; [reflexivity |]. split; split; auto.
    + intros [H | H]; discriminate H.
    + intros [m H]; discriminate H.
  - split; [reflexivity |]. split; split.
    + intros [_ H]; discriminate H.
    + intros H; discriminate H.
    + intros _. eexists. reflexivity.
    + auto.
  - split; [reflexivity |]. split; split.
    + intros [H _]; discriminate H.
    + intros H; discriminate H.
    + intros _. eexists. reflexivity.
    + auto.
Qed.

Lemma validate_output_path_spec_witness :
  fst (validate_output_path "data/new_run" world0) = inr (Path "" ["data"; "new_run"]) /\
  exists message,
    fst (validate_output_path "missing/new_run" world0) = inl (ClickException message None).
Proof.
  split.
  - apply (proj1 (proj1 (proj2 (validate_output_path_spec "data/new_run" world0)))).
    split; vm_compute; reflexivity.
  - apply (proj1 (proj2 (proj2 (validate_output_path_spec "missing/new_run" world0)))).
    left. vm_compute. reflexivity.
Defined.

Example validate_output_path_messages :
  fst (validate_output_path "missing/new_run" world0)
  = inl (ClickException "Parent directory does not exist: missing" None) /\
  fst (validate_output_path "locked/new_run"
         (World (<[Path "" ["locked"] := Node true true false]> sample_fs) [] []))
  = inl (ClickException "No write permission for directory: locked" None).
Proof. split; vm_compute; reflexivity. Qed.

(** ** The Conversion Orchestrator *)

(** What a run leaves alone. *)
Definition keeps_calls {A} (c : M A) : Prop :=
  forall w, calls (snd (c w)) = calls w.

Definition keeps_fs {A} (c : M A) : Prop :=
  forall w, fs (snd (c w)) = fs w.

Create HintDb frame discriminated.

Section Frame.

Context {A B : Type}.

Lemma keeps_calls_ret (a : A) : keeps_calls (ret a).
Proof. intros w. reflexivity. Qed.

Lemma keeps_calls_raise (e : exn) : keeps_calls (@raise A e).
Proof. intros w. reflexivity. Qed.

Lemma keeps_calls_lift (r : exn + A) : keeps_calls (lift r).
Proof. intros w. reflexivity. Qed.

Lemma keeps_calls_bind (c : M A) (k : A -> M B) :
  keeps_calls c -> (forall a, keeps_calls (k a)) -> keeps_calls (bind c k).
Proof.
  intros Hc Hk w. unfold bind. specialize (Hc w).
  destruct (c w) as [[e | a] w']; simpl in *; [exact Hc |].
  rewrite Hk. exact Hc.
Qed.

Lemma keeps_fs_ret (a : A) : keeps_fs (ret a).
Proof. intros w. reflexivity. Qed.

Lemma keeps_fs_raise (e : exn) : keeps_fs (@raise A e).
Proof. intros w. reflexivity. Qed.

Lemma keeps_fs_lift (r : exn + A) : keeps_fs (lift r).
Proof. intros w. reflexivity. Qed.

Lemma keeps_fs_bind (c : M A) (k : A -> M B) :
  keeps_fs c -> (forall a, keeps_fs (k a)) -> keeps_fs (bind c k).
Proof.
  intros Hc Hk w. unfold bind. specialize (Hc w).
  destruct (c w) as [[e | a] w']; simpl in *; [exact Hc |].
  rewrite Hk. exact Hc.
Qed.

End Frame.

Lemma keeps_calls_echo (l : line) : keeps_calls (echo l).
Proof. intros w. reflexivity. Qed.

Lemma keeps_fs_echo (l : line) : keeps_fs (echo l).
Proof. intros w. reflexivity. Qed.

Lemma keeps_calls_when (b : bool) (c : M unit) : keeps_calls c -> keeps_calls (when b c).
Proof. destruct b; simpl; [auto | intros _ w; reflexivity]. Qed.

Lemma keeps_fs_when (b : bool) (c : M unit) : keeps_fs c -> keeps_fs (when b c).
Proof. destruct b; simpl; [auto | intros _ w; reflexivity]. Qed.

Lemma keeps_calls_path_exists (p : path) : keeps_calls (path_exists p).
Proof. intros w. reflexivity. Qed.

Lemma keeps_fs_path_exists (p : path) : keeps_fs (path_exists p).
Proof. intros w. reflexivity. Qed.

Lemma keeps_calls_mkdir (p : path) : keeps_calls (mkdir_parents_exist_ok p).
Proof.
  intros w. unfold mkdir_parents_exist_ok.
  destruct (Fs.mkdir_parents (fs w) p); reflexivity.
Qed.

#[export] Hint Resolve keeps_calls_ret keeps_calls_raise keeps_calls_lift
  keeps_calls_echo keeps_calls_when keeps_calls_path_exists keeps_calls_mkdir
  keeps_fs_ret keeps_fs_raise keeps_fs_lift keeps_fs_echo keeps_fs_when
  keeps_fs_path_exists : frame.

(** Splits a sequence of statements into its steps and closes the steps that
    only read or print. *)
Ltac frame :=
  repeat first
    [ progress intros
    | solve [auto with frame]
    | apply keeps_calls_bind | apply keeps_fs_bind
    | match goal with
      | |- context [if ?b then _ else _] => destruct b
      | |- context [match ?x with _ => _ end] => destruct x
      end ].

Lemma keeps_calls_resolve_input_dir output_dir input_path verbose :
  keeps_calls (resolve_input_dir output_dir input_path verbose).
Proof. unfold resolve_input_dir. frame. Qed.

Lemma keeps_fs_resolve_input_dir output_dir input_path verbose :
  keeps_fs (resolve_input_dir output_dir input_path verbose).
Proof. unfold resolve_input_dir. frame. Qed.

#[export] Hint Resolve keeps_calls_resolve_input_dir keeps_fs_resolve_input_dir : frame.

(** *** The filesystem after [mkdir] *)

Lemma os_mkdir_isdir fs p fs' : Fs.os_mkdir fs p = inr fs' -> Fs.isdir fs' p = true.
Proof.
  unfold Fs.os_mkdir, Fs.isdir. intros H.
  destruct (fs !! p); [discriminate |].
  destruct (Fs.blocked fs p); [discriminate |].
  destruct (fs !! PyPath.parent p) as [n |]; [| discriminate].
  destruct (writable n); [| discriminate].
  simpl in H. injection H as <-. now rewrite lookup_insert_eq.
Qed.

Lemma os_mkdir_keeps fs p fs' q n :
  Fs.os_mkdir fs p = inr fs' -> fs !! q = Some n -> fs' !! q = Some n.
Proof.
  unfold Fs.os_mkdir. intros H Hq.
  destruct (fs !! p) eqn:Hp; [discriminate |].
  destruct (Fs.blocked fs p); [discriminate |].
  destruct (fs !! PyPath.parent p) as [m |]; [| discriminate].
  destruct (writable m); [| discriminate].
  simpl in H. injection H as <-.
  rewrite lookup_insert_ne; [exact Hq | congruence].
Qed.

Lemma mkdir_exist_ok_isdir fs p fs' :
  Fs.mkdir_exist_ok fs p = inr fs' -> Fs.isdir fs' p = true.
Proof.
  unfold Fs.mkdir_exist_ok. destruct (Fs.os_mkdir fs p) as [e | fs1] eqn:Hmk.
  - destruct e; try discriminate;
      (destruct (Fs.isdir fs p) eqn:Hd; [| discriminate]);
      intros H; injection H as <-; exact Hd.
  - intros H. injection H as <-. eapply os_mkdir_isdir; eauto.
Qed.

Lemma mkdir_exist_ok_keeps fs p fs' q n :
  Fs.mkdir_exist_ok fs p = inr fs' -> fs !! q = Some n -> fs' !! q = Some n.
Proof.
  unfold Fs.mkdir_exist_ok. destruct (Fs.os_mkdir fs p) as [e | fs1] eqn:Hmk.
  - destruct e; try discriminate;
      (destruct (Fs.isdir fs p); [| discriminate]);
      intros H; injection H as <-; auto.
  - intros H. injection H as <-. eapply os_mkdir_keeps; eauto.
Qed.

Lemma mkdir_parents_rev_isdir r rtail : forall fs fs',
  Fs.mkdir_parents_rev r rtail fs = inr fs' -> Fs.isdir fs' (Path r (rev rtail)) = true.
Proof.
  destruct rtail as [| x rtail]; intros fs fs'; simpl.
  - destruct (Fs.os_mkdir fs (Path r [])) as [e | fs1] eqn:Hmk.
    + destruct e; try discriminate;
        (destruct (Fs.isdir fs (Path r [])) eqn:Hd; [| discriminate]);
        intros H; injection H as <-; exact Hd.
    + intros H. injection H as <-. eapply os_mkdir_isdir; eauto.
  - destruct (Fs.os_mkdir fs (Path r (rev rtail ++ [x]))) as [e | fs1] eqn:Hmk.
    + destruct e;
        try (destruct (Fs.isdir fs (Path r (rev rtail ++ [x]))) eqn:Hd; [| discriminate];
             intros H; injection H as <-; exact Hd).
      destruct (Fs.mkdir_parents_rev r rtail fs); [discriminate |].
      apply mkdir_exist_ok_isdir.
    + intros H. injection H as <-. eapply os_mkdir_isdir; eauto.
Qed.

Lemma mkdir_parents_rev_keeps r rtail q n : forall fs fs',
  Fs.mkdir_parents_rev r rtail fs = inr fs' -> fs !! q = Some n -> fs' !! q = Some n.
Proof.
  induction rtail as [| x rtail IH]; intros fs fs'; simpl.
  - destruct (Fs.os_mkdir fs (Path r [])) as [e | fs1] eqn:Hmk.
    + destruct e; try discriminate;
        (destruct (Fs.isdir fs (Path r [])); [| discriminate]);
        intros H; injection H as <-; auto.
    + intros H. injection H as <-. eapply os_mkdir_keeps; eauto.
  - destruct (Fs.os_mkdir fs (Path r (rev rtail ++ [x]))) as [e | fs1] eqn:Hmk.
    + destruct e;
        try (destruct (Fs.isdir fs (Path r (rev rtail ++ [x]))); [| discriminate];
             intros H; injection H as <-; auto).
      destruct (Fs.mkdir_parents_rev r rtail fs) as [| fs2] eqn:Hrec; [discriminate |].
      intros H Hq. eapply mkdir_exist_ok_keeps; [exact H |]. eapply IH; eauto.
    + intros H. injection H as <-. eapply os_mkdir_keeps; eauto.
Qed.

(** A successful [mkdir(parents=True, exist_ok=True)] leaves a directory at
    the path and keeps every node that was there. *)
Lemma mkdir_parents_isdir fs p fs' :
  Fs.mkdir_parents fs p = inr fs' -> Fs.isdir fs' p = true.
Proof.
  unfold Fs.mkdir_parents. intros H. apply mkdir_parents_rev_isdir in H.
  rewrite rev_involutive in H. now destruct p.
Qed.

Lemma mkdir_parents_keeps fs p fs' q n :
  Fs.mkdir_parents fs p = inr fs' -> fs !! q = Some n -> fs' !! q = Some n.
Proof. unfold Fs.mkdir_parents. apply mkdir_parents_rev_keeps. Qed.

Local Open Scope list_scope.
(** *** The dataset loop *)

(** The value of a field of a dataset entry, [None] when there is none. *)
Definition field (d : value) (key : string) : value :=
  match Py.getitem d key with
  | inr v => v
  | inl _ => VNone
  end.

(** A dataset entry that has [repo_id] and [selected_videos]. *)
Definition has_fields (d : value) : Prop :=
  (exists r, Py.getitem d "repo_id" = inr r) /\
  (exists sv, Py.getitem d "selected_videos" = inr sv).

(** A dataset entry whose [selected_videos] is a sequence of stream names. *)
Definition names_streams (d : value) : Prop :=
  exists names, Py.getitem d "selected_videos" = inr (VList (map VStr names)).

(** A converter result: an object with [status] and [message]. *)
Definition is_result (res : value) : Prop :=
  (exists status, Py.getitem res "status" = inr status) /\
  (exists message, Py.getitem res "message" = inr message).

(** What a verbose run prints from: a [metadata] object, if any, and stream
    names in every entry. *)
Definition printable (selection_data : list (string * value)) (ds : list value) : Prop :=
  (exists md, Py.get selection_data "metadata" (VDict []) = VDict md) /\
  Forall names_streams ds.

(** The arguments of a call. *)
Definition call_args (k : call) : converter * value * value * path * path :=
  (call_converter k, call_repo_id k, call_selected_videos k,
   call_input_dir k, call_output_dir k).

(** The arguments the entry [d] is to be converted with. *)
Definition entry_args (c : converter) (input_dir output_dir : path) (d : value)
  : converter * value * value * path * path :=
  (c, field d "repo_id", field d "selected_videos", input_dir, output_dir).

(** The input directory of a run. *)
Definition input_dir_of (output_path : string) (input_path : option string) : path :=
  match input_path with
  | None => PyPath.child (PyPath.of_str output_path) "temp_downloads"
  | Some ip => PyPath.of_str ip
  end.

(** *** Outcomes of a computation *)

(** [c] run in [w] returns [a] and leaves the filesystem [fs'] and the calls
    [ks]; or raises [e] and leaves them. *)
Definition returns {A} (c : M A) (w : world) (a : A)
    (fs' : gmap path node) (ks : list call) : Prop :=
  exists w', c w = (inr a, w') /\ fs w' = fs' /\ calls w' = ks.

Definition raises {A} (c : M A) (w : world) (e : exn)
    (fs' : gmap path node) (ks : list call) : Prop :=
  exists w', c w = (inl e, w') /\ fs w' = fs' /\ calls w' = ks.

Section Outcomes.

Context {A B : Type}.

Lemma returns_ret (a : A) w : returns (ret a) w a (fs w) (calls w).
Proof. exists w. auto. Qed.

Lemma returns_lift (a : A) w : returns (lift (inr a)) w a (fs w) (calls w).
Proof. exists w. auto. Qed.

Lemma raises_raise (e : exn) w : raises (@raise A e) w e (fs w) (calls w).
Proof. exists w. auto. Qed.

Lemma raises_lift (e : exn) w : raises (@lift A (inl e)) w e (fs w) (calls w).
Proof. exists w. auto. Qed.

Lemma returns_bind (c : M A) (k : A -> M B) w a fs1 ks1 b fs2 ks2 :
  returns c w a fs1 ks1 ->
  (forall w1, fs w1 = fs1 -> calls w1 = ks1 -> returns (k a) w1 b fs2 ks2) ->
  returns (bind c k) w b fs2 ks2.
Proof.
  intros (w1 & Hc & Hfs & Hks) Hk. destruct (Hk w1 Hfs Hks) as (w2 & Hk2 & ? & ?).
  exists w2. unfold bind. rewrite Hc. auto.
Qed.

Lemma raises_bind_first (c : M A) (k : A -> M B) w e fs1 ks1 :
  raises c w e fs1 ks1 -> raises (bind c k) w e fs1 ks1.
Proof.
  intros (w1 & Hc & Hfs & Hks). exists w1. unfold bind. rewrite Hc. auto.
Qed.

Lemma raises_bind_then (c : M A) (k : A -> M B) w a fs1 ks1 e fs2 ks2 :
  returns c w a fs1 ks1 ->
  (forall w1, fs w1 = fs1 -> calls w1 = ks1 -> raises (k a) w1 e fs2 ks2) ->
  raises (bind c k) w e fs2 ks2.
Proof.
  intros (w1 & Hc & Hfs & Hks) Hk. destruct (Hk w1 Hfs Hks) as (w2 & Hk2 & ? & ?).
  exists w2. unfold bind. rewrite Hc. auto.
Qed.

End Outcomes.

Lemma returns_echo l w : returns (echo l) w tt (fs w) (calls w).
Proof. eexists. split; [reflexivity | auto]. Qed.

Lemma returns_when_echo b l w : returns (when b (echo l)) w tt (fs w) (calls w).
Proof. destruct b; [apply returns_echo | apply returns_ret]. Qed.

Lemma returns_mkdir p w fs1 :
  Fs.mkdir_parents (fs w) p = inr fs1 ->
  returns (mkdir_parents_exist_ok p) w tt fs1 (calls w).
Proof.
  intros H. unfold returns, mkdir_parents_exist_ok. rewrite H.
  eexists. split; [reflexivity | auto].
Qed.

Lemma raises_mkdir p w e :
  Fs.mkdir_parents (fs w) p = inl e ->
  raises (mkdir_parents_exist_ok p) w e (fs w) (calls w).
Proof.
  intros H. unfold raises, mkdir_parents_exist_ok. rewrite H.
  eexists. split; [reflexivity | auto].
Qed.

(** The statements of a run that only read or print end where they began. *)
Lemma keeps_outcome {A} (c : M A) w :
  keeps_fs c -> keeps_calls c ->
  match fst (c w) with
  | inr a => returns c w a (fs w) (calls w)
  | inl e => raises c w e (fs w) (calls w)
  end.
Proof.
  intros Hfs Hks. specialize (Hfs w). specialize (Hks w).
  destruct (c w) as [[e | a] w'] eqn:Hc; simpl in *; exists w'; auto.
Qed.

Lemma getitem_dict v key x : Py.getitem v key = inr x -> exists d, v = VDict d.
Proof. destruct v; simpl; try discriminate. eauto. Qed.

Lemma strings_from_names names : forall i,
  Py.strings_from i (map VStr names) = inr names.
Proof.
  induction names as [| s names IH]; intros i; simpl; [reflexivity |].
  now rewrite IH.
Qed.

Lemma join_names sep names :
  Py.join sep (VList (map VStr names)) = inr (PyStr.join sep names).
Proof. unfold Py.join. simpl. now rewrite strings_from_names. Qed.

Lemma resolve_input_dir_returns output_path input_path verbose w :
  (forall ip, input_path = Some ip -> Fs.exists_ (fs w) (PyPath.of_str ip) = true) ->
  returns (resolve_input_dir (PyPath.of_str output_path) input_path verbose) w
    (input_dir_of output_path input_path) (fs w) (calls w).
Proof.
  intros Hin. unfold resolve_input_dir, input_dir_of. destruct input_path as [ip |].
  - unfold returns, bind, path_exists. rewrite (Hin ip eq_refl).
    eexists. split; [reflexivity | auto].
  - eapply returns_bind; [apply returns_when_echo |]. intros w1 <- <-.
    eapply returns_bind; [apply returns_echo |]. intros w2 <- <-.
    apply returns_ret.
Qed.

Lemma resolve_input_dir_raises output_dir ip verbose w :
  Fs.exists_ (fs w) (PyPath.of_str ip) = false ->
  raises (resolve_input_dir output_dir (Some ip) verbose) w
    (ClickException ("Input directory does not exist: " +:+ ip) None) (fs w) (calls w).
Proof.
  intros Hin. unfold raises, resolve_input_dir, bind, path_exists. rewrite Hin.
  eexists. split; [reflexivity | auto].
Qed.

Section Loop.

Variable convert_dataset :
  converter -> value -> value -> path -> path ->
  gmap path node -> (exn + value) * gmap path node.

(** The collaborator keeps to its contract: it returns, and returns a result. *)
Definition returns_results : Prop :=
  forall c r sv i o fs,
    exists res, fst (convert_dataset c r sv i o fs) = inr res /\ is_result res.

(** The calls of a loop over [items] in which every entry is converted, and
    the filesystem they leave. *)
Fixpoint run_calls (c : converter) (input_dir output_dir : path) (items : list value)
    (fs : gmap path node) : list call * gmap path node :=
  match items with
  | [] => ([], fs)
  | d :: rest =>
      let r := field d "repo_id" in
      let sv := field d "selected_videos" in
      let '(res, fs') := convert_dataset c r sv input_dir output_dir fs in
      let '(ks, fs'') := run_calls c input_dir output_dir rest fs' in
      (Call c r sv input_dir output_dir res :: ks, fs'')
  end.

Lemma run_calls_args c input_dir output_dir items : forall fs,
  map call_args (fst (run_calls c input_dir output_dir items fs))
  = map (entry_args c input_dir output_dir) items.
Proof.
  induction items as [| d rest IH]; intros fs; simpl; [reflexivity |].
  destruct (convert_dataset _ _ _ _ _ fs) as [res fs'].
  specialize (IH fs'). destruct (run_calls _ _ _ rest fs') as [ks fs''].
  simpl in *. now rewrite IH.
Qed.

Lemma run_calls_length c input_dir output_dir items fs :
  length (fst (run_calls c input_dir output_dir items fs)) = length items.
Proof.
  rewrite <- (length_map call_args), run_calls_args. apply length_map.
Qed.

(** One turn of the loop on an entry that has its fields, with a converter
    that returns a result: the turn returns, whatever the status. *)
Lemma process_dataset_returns datasets format verbose input_dir output_dir i d w
    c r sv res fs' :
  Py.getitem d "repo_id" = inr r ->
  Py.getitem d "selected_videos" = inr sv ->
  (verbose = true ->
   (exists n, Py.len datasets = inr n) /\ (exists j, Py.join ", " sv = inr j)) ->
  _get_converter format verbose = inr c ->
  convert_dataset c r sv input_dir output_dir (fs w) = (inr res, fs') ->
  is_result res ->
  returns
    (process_dataset convert_dataset datasets format verbose input_dir output_dir i d)
    w tt fs' (calls w ++ [Call c r sv input_dir output_dir (inr res)]).
Proof.
  intros Hr Hsv Hverb Hc Hcall [[status Hst] [message Hmsg]].
  destruct (getitem_dict _ _ _ Hst) as [rd ->].
  unfold returns, process_dataset, bind, lift, call_convert_dataset.
  rewrite Hr, Hsv, Hc.
  destruct verbose.
  - destruct (Hverb eq_refl) as [[n Hn] [j Hj]].
    rewrite Hn, Hj. cbn [echo fs out calls]. rewrite Hcall, Hst, Hmsg.
    destruct (Py.eq_str status "error").
    + eexists. split; [reflexivity | auto].
    + simpl Py.contains. case_bool_decide as Hsome.
      * destruct Hsome as [x Hx]. simpl Py.getitem. rewrite Hx.
        eexists. split; [reflexivity | auto].
      * eexists. split; [reflexivity | auto].
  - cbn [echo fs out calls ret]. rewrite Hcall, Hst.
    destruct (Py.eq_str status "error").
    + rewrite Hmsg. eexists. split; [reflexivity | auto].
    + eexists. split; [reflexivity | auto].
Qed.

(** The loop over entries that have their fields, with a converter that
    returns results: every entry is converted, in order. *)
Lemma process_datasets_returns datasets format verbose input_dir output_dir c items :
  _get_converter format verbose = inr c ->
  returns_results ->
  Forall has_fields items ->
  (verbose = true -> (exists n, Py.len datasets = inr n) /\ Forall names_streams items) ->
  forall i w,
    returns
      (process_datasets convert_dataset datasets format verbose input_dir output_dir i items)
      w tt
      (snd (run_calls c input_dir output_dir items (fs w)))
      (calls w ++ fst (run_calls c input_dir output_dir items (fs w))).
Proof.
  intros Hc Hres Hfields Hverb.
  induction items as [| d rest IH]; intros i w; simpl.
  - rewrite app_nil_r. apply returns_ret.
  - inversion Hfields as [| ? ? [[r Hr] [sv Hsv]] Hrest]; subst.
    unfold field. rewrite Hr, Hsv.
    destruct (Hres c r sv input_dir output_dir (fs w)) as (res & Hcall & Hisres).
    destruct (convert_dataset c r sv input_dir output_dir (fs w)) as [o fs'] eqn:Hcd.
    simpl in Hcall. subst o.
    eapply returns_bind.
    + eapply process_dataset_returns; eauto.
      intros Hv. destruct (Hverb Hv) as [Hlen Hnames]. split; [exact Hlen |].
      inversion Hnames as [| ? ? [names Hn] _]; subst.
      rewrite Hsv in Hn. injection Hn as ->. eexists. apply join_names.
    + intros w1 Hfs1 Hks1.
      assert (Hverb' : verbose = true ->
                       (exists n, Py.len datasets = inr n) /\ Forall names_streams rest).
      { intros Hv. destruct (Hverb Hv) as [Hlen Hnames]. split; [exact Hlen |].
        now inversion Hnames. }
      specialize (IH Hrest Hverb' (S i) w1). rewrite Hfs1, Hks1 in IH.
      destruct (run_calls c input_dir output_dir rest fs') as [ks fs''].
      simpl in *. rewrite <- app_assoc in IH. exact IH.
Qed.

End Loop.

(** *** Whole runs *)


Section Runs.

Variable convert_dataset :
  converter -> value -> value -> path -> path ->
  gmap path node -> (exn + value) * gmap path node.

(** The output directory can be made and the input directory, when one is
    given, is there once it is made. *)
Definition setup_succeeds (output_path : string) (input_path : option string)
    (w : world) (fs1 : gmap path node) : Prop :=
  Fs.mkdir_parents (fs w) (PyPath.of_str output_path) = inr fs1 /\
  (forall ip, input_path = Some ip -> Fs.exists_ fs1 (PyPath.of_str ip) = true).

(** A run whose setup succeeds, on entries that have their fields, with a
    supported format and a converter that returns results, returns; the
    converter has been called on every entry, in order. *)
Lemma convert_datasets_body_returns selection_data output_path input_path format verbose
    ds c w fs1 :
  Py.lookup "datasets" selection_data = Some (VList ds) ->
  Forall has_fields ds ->
  (verbose = true -> printable selection_data ds) ->
  _get_converter format verbose = inr c ->
  returns_results convert_dataset ->
  setup_succeeds output_path input_path w fs1 ->
  let input_dir := input_dir_of output_path input_path in
  let output_dir := PyPath.of_str output_path in
  returns
    (convert_datasets_body convert_dataset selection_data output_path input_path
       format verbose)
    w tt
    (snd (run_calls convert_dataset c input_dir output_dir ds fs1))
    (calls w ++ fst (run_calls convert_dataset c input_dir output_dir ds fs1)).
Proof.
  intros Hds Hfields Hprint Hc Hres [Hmk Hin] input_dir output_dir.
  unfold convert_datasets_body. fold output_dir.
  assert (Hget : Py.get selection_data "datasets" (VList []) = VList ds).
  { unfold Py.get. now rewrite Hds. }
  rewrite Hget.
  eapply returns_bind; [apply returns_mkdir; exact Hmk |]. intros w1 Hfs1 Hks1.
  eapply returns_bind; [apply returns_when_echo |]. intros w2 Hfs2 Hks2.
  eapply returns_bind.
  { apply resolve_input_dir_returns. rewrite Hfs2, Hfs1. exact Hin. }
  intros w3 Hfs3 Hks3. fold input_dir.
  eapply returns_bind with (a := tt) (fs1 := fs w3) (ks1 := calls w3).
  { destruct verbose; [| apply returns_ret].
    destruct (Hprint eq_refl) as [[md Hmd] _]. rewrite Hmd.
    eapply returns_bind; [apply returns_lift |]. intros w4 <- <-.
    eapply returns_bind; [apply returns_echo |]. intros w5 <- <-.
    simpl Py.contains. eapply returns_bind; [apply returns_lift |]. intros w6 <- <-.
    case_bool_decide as Hsome; [| apply returns_ret].
    destruct Hsome as [x Hx]. simpl Py.getitem. rewrite Hx.
    eapply returns_bind; [apply returns_lift |]. intros w7 <- <-.
    apply returns_echo. }
  intros w4 Hfs4 Hks4.
  eapply returns_bind; [apply returns_lift |]. intros w5 Hfs5 Hks5.
  eapply returns_bind.
  { eapply process_datasets_returns with (c := c); eauto.
    intros Hv. split; [eexists; reflexivity | apply (Hprint Hv)]. }
  intros w6 Hfs6 Hks6.
  assert (Hfs : fs w5 = fs1) by congruence.
  assert (Hks : calls w5 = calls w) by congruence.
  rewrite Hfs in Hfs6, Hks6. rewrite Hks in Hks6.
  eapply returns_bind; [apply returns_lift |]. intros w7 Hfs7 Hks7.
  eapply returns_bind; [apply returns_echo |]. intros w8 Hfs8 Hks8.
  eapply returns_bind; [apply returns_echo |]. intros w9 Hfs9 Hks9.
  assert (Hfs' : fs w9 = snd (run_calls convert_dataset c input_dir output_dir ds fs1))
    by congruence.
  assert (Hks' : calls w9 = calls w ++ fst (run_calls convert_dataset c input_dir output_dir ds fs1))
    by congruence.
  rewrite <- Hfs', <- Hks'.
  destruct (bool_decide (input_path = None) && _)%bool;
    [apply returns_when_echo | apply returns_ret].
Qed.

Lemma convert_datasets_returns selection_data output_path input_path format verbose
    ds c w fs1 :
  Py.lookup "datasets" selection_data = Some (VList ds) ->
  Forall has_fields ds ->
  (verbose = true -> printable selection_data ds) ->
  _get_converter format verbose = inr c ->
  returns_results convert_dataset ->
  setup_succeeds output_path input_path w fs1 ->
  let input_dir := input_dir_of output_path input_path in
  let output_dir := PyPath.of_str output_path in
  returns
    (convert_datasets convert_dataset selection_data output_path input_path format verbose)
    w tt
    (snd (run_calls convert_dataset c input_dir output_dir ds fs1))
    (calls w ++ fst (run_calls convert_dataset c input_dir output_dir ds fs1)).
Proof.
  intros Hds Hfields Hprint Hc Hres Hsetup input_dir output_dir.
  destruct (convert_datasets_body_returns _ _ _ _ _ _ _ _ _ Hds Hfields Hprint Hc Hres Hsetup)
    as (w' & Hbody & Hfs & Hks).
  exists w'. unfold convert_datasets, try_except. rewrite Hbody. auto.
Qed.

(** C1.  On a selection document whose [datasets] is a list of N entries that
    have [repo_id] and [selected_videos], with a supported format (so that a
    converter is resolved), a setup that succeeds and a converter that always
    returns a result, [convert_datasets] calls [convert_dataset] exactly N
    times: the i-th call is made on the converter of the format with the
    [repo_id] and [selected_videos] of the i-th entry, the input directory and
    the output directory. *)
Theorem convert_datasets_calls_every_entry_in_order
    selection_data output_path input_path format verbose ds c w fs1 :
  Py.lookup "datasets" selection_data = Some (VList ds) ->
  Forall has_fields ds ->
  (verbose = true -> printable selection_data ds) ->
  _get_converter format verbose = inr c ->
  returns_results convert_dataset ->
  setup_succeeds output_path input_path w fs1 ->
  calls w = [] ->
  let w' := snd (convert_datasets convert_dataset selection_data output_path input_path
                   format verbose w) in
  length (calls w') = length ds /\
  map call_args (calls w')
  = map (entry_args c (input_dir_of output_path input_path) (PyPath.of_str output_path)) ds.
Proof.
  intros Hds Hfields Hprint Hc Hres Hsetup Hnil w'.
  destruct (convert_datasets_returns _ _ _ _ _ _ _ _ _ Hds Hfields Hprint Hc Hres Hsetup)
    as (w1 & Hrun & _ & Hks).
  subst w'. rewrite Hrun. simpl snd. rewrite Hks, Hnil. simpl app.
  split; [apply run_calls_length | apply run_calls_args].
Qed.



End Runs.

(** *** Runs with a format that is not supported *)

(** A computation that raises in every world. *)
Definition always_raises {A} (c : M A) : Prop :=
  forall w, exists e, fst (c w) = inl e.

Section Raising.

Context {A B : Type}.

Lemma always_raises_lift (e : exn) : always_raises (@lift A (inl e)).
Proof. intros w. eauto. Qed.

Lemma always_raises_bind_first (c : M A) (k : A -> M B) :
  always_raises c -> always_raises (bind c k).
Proof.
  intros Hc w. unfold bind. destruct (Hc w) as [e He].
  destruct (c w) as [[e' | a] w']; simpl in *; [eauto | discriminate].
Qed.

Lemma always_raises_bind_later (c : M A) (k : A -> M B) :
  (forall a, always_raises (k a)) -> always_raises (bind c k).
Proof.
  intros Hk w. unfold bind. destruct (c w) as [[e | a] w']; simpl; [eauto |].
  apply Hk.
Qed.

Lemma keeps_calls_bind_raise (e : exn) (k : A -> M B) :
  keeps_calls (bind (lift (inl e)) k).
Proof. intros w. reflexivity. Qed.

Lemma keeps_fs_bind_raise (e : exn) (k : A -> M B) :
  keeps_fs (bind (lift (inl e)) k).
Proof. intros w. reflexivity. Qed.

End Raising.

#[export] Hint Resolve keeps_calls_bind_raise keeps_fs_bind_raise : frame.

(** A run that starts by making a directory and then keeps the filesystem
    and the calls. *)
Lemma after_mkdir {B} (p : path) (k : unit -> M B) (w : world) :
  keeps_calls (k tt) -> keeps_fs (k tt) ->
  let run := bind (mkdir_parents_exist_ok p) k w in
  calls (snd run) = calls w /\
  fs (snd run) = match Fs.mkdir_parents (fs w) p with
                 | inr fs1 => fs1
                 | inl _ => fs w
                 end.
Proof.
  intros Hks Hfs. unfold bind, mkdir_parents_exist_ok.
  destruct (Fs.mkdir_parents (fs w) p) as [e | fs1]; simpl; [auto |].
  rewrite Hks, Hfs. auto.
Qed.

Section Unsupported.

Variable convert_dataset :
  converter -> value -> value -> path -> path ->
  gmap path node -> (exn + value) * gmap path node.

Variables (format : string) (verbose : bool).

Hypothesis unsupported : ~ In format get_supported_formats.

Lemma process_dataset_unsupported datasets input_dir output_dir i d :
  let turn := process_dataset convert_dataset datasets format verbose
                input_dir output_dir i d in
  always_raises turn /\ keeps_calls turn /\ keeps_fs turn.
Proof.
  intros turn. subst turn. unfold process_dataset.
  rewrite (_get_converter_unsupported format verbose unsupported).
  split; [| split].
  - do 3 (apply always_raises_bind_later; intros ?).
    apply always_raises_bind_first, always_raises_lift.
  - frame.
  - frame.
Qed.

Lemma process_datasets_unsupported datasets input_dir output_dir items : forall i,
  let loop := process_datasets convert_dataset datasets format verbose
                input_dir output_dir i items in
  keeps_calls loop /\ keeps_fs loop.
Proof.
  induction items as [| d rest IH]; intros i; simpl.
  - split; auto with frame.
  - destruct (process_dataset_unsupported datasets input_dir output_dir i d)
      as (_ & Hks & Hfs).
    split; [apply keeps_calls_bind | apply keeps_fs_bind]; auto; intros; apply IH.
Qed.

Lemma process_datasets_unsupported_raises datasets input_dir output_dir i d rest :
  always_raises
    (process_datasets convert_dataset datasets format verbose input_dir output_dir i
       (d :: rest)).
Proof.
  simpl. apply always_raises_bind_first.
  apply (process_dataset_unsupported datasets input_dir output_dir i d).
Qed.

(** What follows the creation of the output directory neither calls a
    converter nor changes the filesystem. *)
Lemma convert_datasets_body_unsupported selection_data output_path input_path w :
  let run := convert_datasets_body convert_dataset selection_data output_path
               input_path format verbose w in
  calls (snd run) = calls w /\
  fs (snd run) = match Fs.mkdir_parents (fs w) (PyPath.of_str output_path) with
                 | inr fs1 => fs1
                 | inl _ => fs w
                 end.
Proof.
  unfold convert_datasets_body. apply after_mkdir.
  - frame; apply process_datasets_unsupported.
  - frame; apply process_datasets_unsupported.
Qed.

End Unsupported.

Lemma always_raises_bind_lift {A B} (a : A) (k : A -> M B) :
  always_raises (k a) -> always_raises (bind (lift (inr a)) k).
Proof. intros Hk w. apply Hk. Qed.

Lemma bind_returns {A B} (c : M A) (k : A -> M B) w a fs1 ks1 :
  returns c w a fs1 ks1 ->
  exists w1, fs w1 = fs1 /\ calls w1 = ks1 /\ bind c k w = k a w1.
Proof.
  intros (w1 & Hc & Hfs & Hks). exists w1. unfold bind. rewrite Hc. auto.
Qed.

Section Wrapper.

Variable convert_dataset :
  converter -> value -> value -> path -> path ->
  gmap path node -> (exn + value) * gmap path node.

(** The handler of [convert_datasets] changes what is raised and nothing
    else. *)
Lemma convert_datasets_world selection_data output_path input_path format verbose w :
  snd (convert_datasets convert_dataset selection_data output_path input_path
         format verbose w)
  = snd (convert_datasets_body convert_dataset selection_data output_path input_path
           format verbose w).
Proof.
  unfold convert_datasets, try_except.
  destruct (convert_datasets_body _ _ _ _ _ _ w) as [[e | a] w']; reflexivity.
Qed.

Lemma convert_datasets_raises selection_data output_path input_path format verbose w
    e fs' ks :
  raises
    (convert_datasets_body convert_dataset selection_data output_path input_path
       format verbose) w e fs' ks ->
  raises
    (convert_datasets convert_dataset selection_data output_path input_path
       format verbose) w
    (ClickException ("Conversion failed: " +:+ str_exn e) (Some e)) fs' ks.
Proof.
  intros (w' & Hbody & Hfs & Hks). exists w'.
  unfold convert_datasets, try_except. rewrite Hbody. auto.
Qed.

(** A run whose setup succeeds reaches the loop with the filesystem the
    setup left and no call made. *)
Lemma convert_datasets_body_reaches_loop selection_data output_path input_path
    format verbose ds w fs1 :
  Py.lookup "datasets" selection_data = Some (VList ds) ->
  (verbose = true -> exists md, Py.get selection_data "metadata" (VDict []) = VDict md) ->
  setup_succeeds output_path input_path w fs1 ->
  exists w1 k,
    fs w1 = fs1 /\ calls w1 = calls w /\
    convert_datasets_body convert_dataset selection_data output_path input_path
      format verbose w
    = bind (process_datasets convert_dataset (VList ds) format verbose
              (input_dir_of output_path input_path) (PyPath.of_str output_path) 1 ds)
        k w1.
Proof.
  intros Hds Hmeta [Hmk Hin]. unfold convert_datasets_body.
  assert (Hget : Py.get selection_data "datasets" (VList []) = VList ds).
  { unfold Py.get. now rewrite Hds. }
  rewrite Hget.
  edestruct (@bind_returns unit) as (w1 & Hfs1 & Hks1 & ->);
    [apply returns_mkdir; exact Hmk |].
  edestruct (@bind_returns unit) as (w2 & Hfs2 & Hks2 & ->);
    [apply returns_when_echo |].
  edestruct (@bind_returns path) as (w3 & Hfs3 & Hks3 & ->).
  { apply resolve_input_dir_returns. rewrite Hfs2, Hfs1. exact Hin. }
  edestruct (@bind_returns unit) as (w4 & Hfs4 & Hks4 & ->).
  { instantiate (3 := tt). instantiate (1 := calls w3). instantiate (1 := fs w3).
    destruct verbose; [| apply returns_ret].
    destruct (Hmeta eq_refl) as [md Hmd]. rewrite Hmd.
    eapply returns_bind; [apply returns_lift |]. intros w4 <- <-.
    eapply returns_bind; [apply returns_echo |]. intros w5 <- <-.
    simpl Py.contains. eapply returns_bind; [apply returns_lift |]. intros w6 <- <-.
    case_bool_decide as Hsome; [| apply returns_ret].
    destruct Hsome as [x Hx]. simpl Py.getitem. rewrite Hx.
    eapply returns_bind; [apply returns_lift |]. intros w7 <- <-.
    apply returns_echo. }
  simpl Py.iter.
  edestruct (@bind_returns (list value)) as (w5 & Hfs5 & Hks5 & ->);
    [apply returns_lift |].
  exists w5. eexists. split; [congruence |]. split; [congruence |]. reflexivity.
Qed.

End Wrapper.

(** *** Counting calls *)

(** A computation that makes at most [n] calls. *)
Definition adds_calls {A} (n : nat) (c : M A) : Prop :=
  forall w, (length (calls (snd (c w))) <= length (calls w) + n)%nat.

(** An outcome that is an exception, reached with at most [n] calls made. *)
Definition fails_within {A} (n : nat) (r : (exn + A) * world) : Prop :=
  (exists e, fst r = inl e) /\ (length (calls (snd r)) <= n)%nat.

Section Counting.

Context {A B : Type}.

Lemma adds_calls_bind_first (n : nat) (c : M A) (k : A -> M B) :
  keeps_calls c -> (forall a, adds_calls n (k a)) -> adds_calls n (bind c k).
Proof.
  intros Hc Hk w. unfold bind. specialize (Hc w).
  destruct (c w) as [[e | a] w']; simpl in *; [rewrite Hc; lia |].
  rewrite <- Hc. apply Hk.
Qed.

Lemma adds_calls_bind_rest (n : nat) (c : M A) (k : A -> M B) :
  adds_calls n c -> (forall a, keeps_calls (k a)) -> adds_calls n (bind c k).
Proof.
  intros Hc Hk w. unfold bind. specialize (Hc w).
  destruct (c w) as [[e | a] w']; simpl in *; [exact Hc |].
  rewrite Hk. exact Hc.
Qed.

Lemma fails_bind_keeps (n : nat) (c : M A) (k : A -> M B) w :
  keeps_calls c -> (length (calls w) <= n)%nat ->
  (forall a w1, calls w1 = calls w -> fails_within n (k a w1)) ->
  fails_within n (bind c k w).
Proof.
  intros Hc Hn Hk. unfold bind. specialize (Hc w).
  destruct (c w) as [[e | a] w']; simpl in *.
  - split; [eauto | simpl; rewrite Hc; exact Hn].
  - apply Hk. exact Hc.
Qed.

Lemma fails_bind_lift (n : nat) (a : A) (k : A -> M B) w :
  fails_within n (k a w) -> fails_within n (bind (lift (inr a)) k w).
Proof. auto. Qed.

Lemma fails_bind_first (n : nat) (c : M A) (k : A -> M B) w :
  fails_within n (c w) -> fails_within n (bind c k w).
Proof.
  intros [[e He] Hn]. unfold bind.
  destruct (c w) as [[e' | a] w']; simpl in *; [| discriminate].
  split; eauto.
Qed.

End Counting.

(** The field whose absence stops the turn on the entry [d], if any. *)
Definition missing_field (d : value) : option string :=
  match Py.getitem d "repo_id" with
  | inl (KeyError key) => Some key
  | inl _ => None
  | inr _ =>
      match Py.getitem d "selected_videos" with
      | inl (KeyError key) => Some key
      | _ => None
      end
  end.

Lemma getitem_KeyError d key key' : Py.getitem d key = inl (KeyError key') -> key' = key.
Proof.
  destruct d; simpl; try discriminate.
  destruct (Py.lookup key d); [discriminate |]. congruence.
Qed.

Lemma missing_field_key d key :
  missing_field d = Some key -> key = "repo_id" \/ key = "selected_videos".
Proof.
  unfold missing_field.
  destruct (Py.getitem d "repo_id") as [[] |] eqn:Hr; try discriminate.
  - intros H. injection H as <-. left. eapply getitem_KeyError; eauto.
  - destruct (Py.getitem d "selected_videos") as [[] |] eqn:Hsv; try discriminate.
    intros H. injection H as <-. right. eapply getitem_KeyError; eauto.
Qed.

Example missing_selected_videos :
  missing_field (VDict [("repo_id", VStr "a")]) = Some "selected_videos".
Proof. reflexivity. Qed.

Section Malformed.

Variable convert_dataset :
  converter -> value -> value -> path -> path ->
  gmap path node -> (exn + value) * gmap path node.

Lemma adds_calls_call c r sv input_dir output_dir :
  adds_calls 1 (call_convert_dataset convert_dataset c r sv input_dir output_dir).
Proof.
  intros w. unfold call_convert_dataset.
  destruct (convert_dataset c r sv input_dir output_dir (fs w)) as [res fs'].
  simpl. rewrite length_app. simpl. lia.
Qed.

Lemma process_dataset_adds datasets format verbose input_dir output_dir i d :
  adds_calls 1
    (process_dataset convert_dataset datasets format verbose input_dir output_dir i d).
Proof.
  unfold process_dataset.
  do 6 (apply adds_calls_bind_first; [frame | intros ?]).
  apply adds_calls_bind_rest; [apply adds_calls_call | frame].
Qed.

(** The turn on an entry that lacks a field raises [KeyError] before anything
    is printed or called. *)
Lemma process_dataset_malformed datasets format verbose input_dir output_dir i d key w :
  missing_field d = Some key ->
  process_dataset convert_dataset datasets format verbose input_dir output_dir i d w
  = (inl (KeyError key), w).
Proof.
  unfold missing_field, process_dataset, bind, lift.
  destruct (Py.getitem d "repo_id") as [[] | r]; try discriminate.
  - intros H. injection H as <-. reflexivity.
  - destruct (Py.getitem d "selected_videos") as [[] | sv]; try discriminate.
    intros H. injection H as <-. reflexivity.
Qed.

Lemma process_datasets_app datasets format verbose input_dir output_dir l1 l2 :
  forall i w,
    process_datasets convert_dataset datasets format verbose input_dir output_dir i
      (l1 ++ l2) w
    = bind (process_datasets convert_dataset datasets format verbose input_dir
              output_dir i l1)
        (fun _ => process_datasets convert_dataset datasets format verbose input_dir
                    output_dir (i + length l1) l2) w.
Proof.
  induction l1 as [| x l1 IH]; intros i w; simpl.
  - unfold bind, ret. now rewrite Nat.add_0_r.
  - unfold bind.
    destruct (process_dataset _ _ _ _ _ _ _ x w) as [[e | []] w1]; [reflexivity |].
    rewrite IH. unfold bind. now rewrite Nat.add_succ_r.
Qed.

(** A loop that meets an entry lacking a field raises, with no call made for
    that entry or a later one. *)
Lemma process_datasets_malformed datasets format verbose input_dir output_dir d key post :
  missing_field d = Some key ->
  forall pre i w,
    fails_within (length (calls w) + length pre)
      (process_datasets convert_dataset datasets format verbose input_dir output_dir i
         (pre ++ d :: post) w).
Proof.
  intros Hd. induction pre as [| x pre IH]; intros i w; simpl.
  - unfold bind. rewrite (process_dataset_malformed _ _ _ _ _ _ _ _ _ Hd).
    split; [eauto | simpl; lia].
  - pose proof (process_dataset_adds datasets format verbose input_dir output_dir i x w)
      as Hadd.
    unfold bind.
    destruct (process_dataset _ _ _ _ _ _ _ x w) as [[e | []] w1]; simpl in *.
    + split; [eauto | simpl; lia].
    + destruct (IH (S i) w1) as [He Hn]. split; [exact He | lia].
Qed.

Lemma convert_datasets_body_malformed selection_data output_path input_path format
    verbose pre d post key w :
  Py.lookup "datasets" selection_data = Some (VList (pre ++ d :: post)) ->
  missing_field d = Some key ->
  fails_within (length (calls w) + length pre)
    (convert_datasets_body convert_dataset selection_data output_path input_path
       format verbose w).
Proof.
  intros Hds Hd. unfold convert_datasets_body.
  assert (Hget : Py.get selection_data "datasets" (VList []) = VList (pre ++ d :: post)).
  { unfold Py.get. now rewrite Hds. }
  rewrite Hget.
  apply fails_bind_keeps; [frame | lia |]. intros [] w1 Hw1.
  apply fails_bind_keeps; [frame | rewrite Hw1; lia |]. intros [] w2 Hw2.
  rewrite Hw1 in Hw2.
  apply fails_bind_keeps; [frame | rewrite Hw2; lia |]. intros input_dir w3 Hw3.
  rewrite Hw2 in Hw3.
  apply fails_bind_keeps; [frame | rewrite Hw3; lia |]. intros [] w4 Hw4.
  rewrite Hw3 in Hw4.
  simpl Py.iter. apply fails_bind_lift, fails_bind_first.
  rewrite <- Hw4.
  now apply process_datasets_malformed with (key := key).
Qed.

End Malformed.

(** *** The claims on whole runs, continued *)

Section Claims.

Variable convert_dataset :
  converter -> value -> value -> path -> path ->
  gmap path node -> (exn + value) * gmap path node.

(** C3, amended.  [convert_datasets] makes the output directory first; the
    format is looked at only when a converter is resolved for a dataset
    entry.  With a format that is not supported the output directory is made
    all the same, whenever it can be made; nothing else in the filesystem
    changes and no converter is called. *)
Theorem output_dir_is_made_before_the_format_is_checked
    selection_data output_path input_path format verbose w fs1 :
  ~ In format get_supported_formats ->
  Fs.mkdir_parents (fs w) (PyPath.of_str output_path) = inr fs1 ->
  let w' := snd (convert_datasets convert_dataset selection_data output_path input_path
                   format verbose w) in
  Fs.isdir (fs w') (PyPath.of_str output_path) = true /\
  fs w' = fs1 /\
  calls w' = calls w.
Proof.
  intros Hunsupported Hmk w'. subst w'. rewrite convert_datasets_world.
  destruct (convert_datasets_body_unsupported convert_dataset format verbose
              Hunsupported selection_data output_path input_path w) as [Hks Hfs].
  rewrite Hmk in Hfs. rewrite Hfs, Hks.
  split; [eapply mkdir_parents_isdir; eauto | auto].
Qed.

Lemma process_dataset_unsupported_exact datasets format verbose input_dir output_dir
    i d w :
  ~ In format get_supported_formats ->
  has_fields d ->
  (verbose = true -> (exists n, Py.len datasets = inr n) /\ names_streams d) ->
  raises
    (process_dataset convert_dataset datasets format verbose input_dir output_dir i d) w
    (ClickException
       ("Unsupported format: " +:+ format
        +:+ ". Supported formats: ['droid', 'vjepa2-ac']") None)
    (fs w) (calls w).
Proof.
  intros Hunsupported [[r Hr] [sv Hsv]] Hverb.
  unfold raises, process_dataset, bind, lift.
  rewrite Hr, Hsv, (_get_converter_unsupported format verbose Hunsupported).
  destruct verbose.
  - destruct (Hverb eq_refl) as [[n Hn] [names Hnames]].
    rewrite Hsv in Hnames. injection Hnames as ->.
    rewrite Hn, join_names. eexists. split; [reflexivity | auto].
  - eexists. split; [reflexivity | auto].
Qed.

Lemma convert_datasets_body_unsupported_raises selection_data output_path input_path
    format verbose d rest :
  ~ In format get_supported_formats ->
  Py.lookup "datasets" selection_data = Some (VList (d :: rest)) ->
  always_raises
    (convert_datasets_body convert_dataset selection_data output_path input_path
       format verbose).
Proof.
  intros Hunsupported Hds. unfold convert_datasets_body.
  assert (Hget : Py.get selection_data "datasets" (VList []) = VList (d :: rest)).
  { unfold Py.get. now rewrite Hds. }
  rewrite Hget.
  do 4 (apply always_raises_bind_later; intros ?).
  simpl Py.iter. apply always_raises_bind_lift, always_raises_bind_first.
  now apply process_datasets_unsupported_raises.
Qed.

(** C10.  The default format, ["hdf5"], is not a supported format.  A run
    with it never calls a converter.  On a document whose [datasets] is a
    list with at least one entry the run fails with the [ClickException] that
    wraps what was raised; when the first entry has its fields and the setup
    succeeds, what was raised is the [ClickException] of [_get_converter]. *)
Theorem default_format_fails_without_converting
    selection_data output_path input_path verbose w :
  let run := convert_datasets convert_dataset selection_data output_path input_path
               default_format verbose w in
  ~ In default_format get_supported_formats /\
  calls (snd run) = calls w /\
  (forall d rest,
     Py.lookup "datasets" selection_data = Some (VList (d :: rest)) ->
     exists e,
       fst run = inl (ClickException ("Conversion failed: " +:+ str_exn e) (Some e))) /\
  (forall d rest fs1,
     Py.lookup "datasets" selection_data = Some (VList (d :: rest)) ->
     has_fields d ->
     (verbose = true -> printable selection_data [d]) ->
     setup_succeeds output_path input_path w fs1 ->
     fst run =
     inl (ClickException
            "Conversion failed: Unsupported format: hdf5. Supported formats: ['droid', 'vjepa2-ac']"
            (Some (ClickException
                     "Unsupported format: hdf5. Supported formats: ['droid', 'vjepa2-ac']"
                     None)))).
Proof.
  intros run.
  assert (Hunsupported : ~ In default_format get_supported_formats).
  { simpl. intros [H | [H | []]]; discriminate H. }
  split; [exact Hunsupported |]. split; [| split].
  - subst run. rewrite convert_datasets_world.
    apply (convert_datasets_body_unsupported convert_dataset default_format verbose
             Hunsupported).
  - intros d rest Hds.
    destruct (convert_datasets_body_unsupported_raises selection_data output_path
                input_path default_format verbose d rest Hunsupported Hds w) as [e He].
    exists e. subst run. unfold convert_datasets, try_except.
    destruct (convert_datasets_body _ _ _ _ _ _ w) as [[e' | a] w1]; simpl in *;
      [| discriminate].
    injection He as ->. reflexivity.
  - intros d rest fs1 Hds Hfields Hprint Hsetup.
    destruct (convert_datasets_body_reaches_loop convert_dataset selection_data
                output_path input_path default_format verbose (d :: rest) w fs1 Hds)
      as (w1 & k & Hfs1 & Hks1 & Hbody); [| exact Hsetup |].
    { intros Hv. apply (Hprint Hv). }
    destruct (process_dataset_unsupported_exact (VList (d :: rest)) default_format verbose
                (input_dir_of output_path input_path) (PyPath.of_str output_path)
                1 d w1 Hunsupported Hfields) as (w2 & Hturn & _).
    { intros Hv. split; [eexists; reflexivity |].
      destruct (Hprint Hv) as [_ Hnames]. now inversion Hnames. }
    subst run. unfold convert_datasets, try_except. rewrite Hbody.
    simpl process_datasets. unfold bind. rewrite Hturn. reflexivity.
Qed.

(** C4.  A dataset entry that lacks [repo_id] or [selected_videos] makes the
    run fail with a [ClickException]; no call is made for that entry or for
    an entry after it.  When the entries before it are converted, the
    exception wraps the [KeyError] of the missing field and the calls are
    those of the entries before it. *)
Theorem malformed_entry_aborts_the_run
    selection_data output_path input_path format verbose pre d post key w :
  Py.lookup "datasets" selection_data = Some (VList (pre ++ d :: post)) ->
  missing_field d = Some key ->
  let run := convert_datasets convert_dataset selection_data output_path input_path
               format verbose w in
  (key = "repo_id" \/ key = "selected_videos") /\
  (exists e,
     fst run = inl (ClickException ("Conversion failed: " +:+ str_exn e) (Some e))) /\
  (length (calls (snd run)) <= length (calls w) + length pre)%nat /\
  (forall c fs1,
     Forall has_fields pre ->
     (verbose = true -> printable selection_data pre) ->
     _get_converter format verbose = inr c ->
     returns_results convert_dataset ->
     setup_succeeds output_path input_path w fs1 ->
     fst run = inl (ClickException ("Conversion failed: '" +:+ key +:+ "'")
                      (Some (KeyError key))) /\
     calls (snd run)
     = calls w ++ fst (run_calls convert_dataset c (input_dir_of output_path input_path)
                         (PyPath.of_str output_path) pre fs1)).
Proof.
  intros Hds Hd run.
  split; [eapply missing_field_key; exact Hd |].
  destruct (convert_datasets_body_malformed convert_dataset selection_data output_path
              input_path format verbose pre d post key w Hds Hd) as [[e He] Hn].
  split; [| split].
  - exists e. subst run. unfold convert_datasets, try_except.
    destruct (convert_datasets_body _ _ _ _ _ _ w) as [[e' | a] w1]; simpl in *;
      [| discriminate].
    injection He as ->. reflexivity.
  - subst run. rewrite convert_datasets_world. exact Hn.
  - intros c fs1 Hfields Hprint Hc Hres Hsetup.
    destruct (convert_datasets_body_reaches_loop convert_dataset selection_data
                output_path input_path format verbose (pre ++ d :: post) w fs1 Hds)
      as (w1 & k & Hfs1 & Hks1 & Hbody); [| exact Hsetup |].
    { intros Hv. apply (Hprint Hv). }
    destruct (process_datasets_returns convert_dataset (VList (pre ++ d :: post))
                format verbose (input_dir_of output_path input_path)
                (PyPath.of_str output_path) c pre Hc Hres Hfields) with (i := 1%nat) (w := w1)
      as (w2 & Hloop & Hfs2 & Hks2).
    { intros Hv. split; [eexists; reflexivity | apply (Hprint Hv)]. }
    assert (Hrun : run = (inl (ClickException ("Conversion failed: '" +:+ key +:+ "'")
                                 (Some (KeyError key))), w2)).
    { subst run. unfold convert_datasets, try_except. rewrite Hbody.
      unfold bind at 1. rewrite process_datasets_app. unfold bind at 1. rewrite Hloop.
      simpl process_datasets. unfold bind at 1.
      rewrite (process_dataset_malformed convert_dataset _ _ _ _ _ _ _ _ _ Hd).
      reflexivity. }
    rewrite Hrun. simpl. split; [reflexivity |]. rewrite Hks2, Hks1, Hfs1. reflexivity.
Qed.

End Claims.

(** ** The claims at concrete runs *)

Lemma stub_ok_returns_results : returns_results stub_ok.
Proof.
  intros c r sv i o fs. eexists. split; [reflexivity |].
  split; eexists; reflexivity.
Qed.

Lemma stub_error_returns_results : returns_results stub_error.
Proof.
  intros c r sv i o fs. eexists. split; [reflexivity |].
  split; eexists; reflexivity.
Qed.

Lemma entry_has_fields repo_id videos : has_fields (entry repo_id videos).
Proof. split; eexists; reflexivity. Qed.

Lemma entry_names_streams repo_id videos : names_streams (entry repo_id videos).
Proof. exists videos. reflexivity. Qed.

(** The filesystem once [out] is made in the sample tree. *)
Definition sample_fs_out : gmap path node :=
  <[Path "" ["out"] := Fs.new_dir]> sample_fs.

Lemma setup_out_data :
  setup_succeeds "out" (Some "data") world0 sample_fs_out.
Proof.
  split; [by_evaluation |].
  intros ip H. injection H as <-. by_evaluation.
Qed.

Lemma setup_out_download : setup_succeeds "out" None world0 sample_fs_out.
Proof. split; [by_evaluation | discriminate]. Qed.

Lemma convert_datasets_calls_every_entry_in_order_witness :
  length (calls (snd (convert_datasets stub_ok two_datasets "out" (Some "data")
                        "droid" true world0))) = 2%nat /\
  map call_args (calls (snd (convert_datasets stub_ok two_datasets "out" (Some "data")
                               "droid" true world0)))
  = [(DROIDConverter true, VStr "a", VList [VStr "x"], Path "" ["data"], Path "" ["out"]);
     (DROIDConverter true, VStr "b", VList [VStr "y"], Path "" ["data"], Path "" ["out"])].
Proof.
  apply (convert_datasets_calls_every_entry_in_order stub_ok two_datasets "out"
           (Some "data") "droid" true [entry "a" ["x"]; entry "b" ["y"]]
           (DROIDConverter true) world0 sample_fs_out).
  - reflexivity.
  - repeat constructor; apply entry_has_fields.
  - intros _. split; [exists []; reflexivity |].
    repeat constructor; apply entry_names_streams.
  - reflexivity.
  - exact stub_ok_returns_results.
  - exact setup_out_data.
  - reflexivity.
Defined.


(** Both calls of that run returned the status ["error"], and both were made. *)
Example run_two_datasets_error :
  let '(r, w) := convert_datasets stub_error two_datasets "out" None "vjepa2-ac" false
                   world0 in
  (r, map call_repo_id (calls w),
   map (fun k => match call_outcome k with
                 | inr res => Py.getitem res "status"
                 | inl e => inl e
                 end) (calls w))
  = (inr tt, [VStr "a"; VStr "b"], [inr (VStr "error"); inr (VStr "error")]).
Proof. vm_compute. reflexivity. Qed.

(** With the format ["hdf5"] and no directory [out], the run makes [out]
    and then fails on the format. *)
Lemma unsupported_format_still_makes_output_dir :
  validate_format "hdf5"
  = inl (ClickException "Unsupported format 'hdf5'. Supported formats: droid, vjepa2-ac"
           None) /\
  Fs.exists_ (fs world0) (Path "" ["out"]) = false /\
  Fs.isdir (fs (snd (convert_datasets stub_ok two_datasets "out" (Some "data") "hdf5"
                       false world0))) (Path "" ["out"]) = true.
Proof. repeat split; vm_compute; reflexivity. Qed.

Lemma output_dir_is_made_before_the_format_is_checked_witness :
  Fs.isdir (fs (snd (convert_datasets stub_ok two_datasets "out" (Some "data") "hdf5"
                       false world0))) (PyPath.of_str "out") = true /\
  fs (snd (convert_datasets stub_ok two_datasets "out" (Some "data") "hdf5" false world0))
  = sample_fs_out /\
  calls (snd (convert_datasets stub_ok two_datasets "out" (Some "data") "hdf5" false
                world0)) = calls world0.
Proof.
  apply (output_dir_is_made_before_the_format_is_checked stub_ok two_datasets "out"
           (Some "data") "hdf5" false world0 sample_fs_out).
  - simpl. intros [H | [H | []]]; discriminate H.
  - exact (proj1 setup_out_data).
Defined.

(** A document whose second entry has no [selected_videos]. *)
Definition second_entry_malformed : list (string * value) :=
  [("datasets", VList [entry "a" ["x"]; VDict [("repo_id", VStr "b")]; entry "c" ["z"]])].

Lemma malformed_entry_aborts_the_run_witness :
  fst (convert_datasets stub_ok second_entry_malformed "out" (Some "data") "droid" false
         world0)
  = inl (ClickException "Conversion failed: 'selected_videos'"
           (Some (KeyError "selected_videos"))) /\
  calls (snd (convert_datasets stub_ok second_entry_malformed "out" (Some "data") "droid"
                false world0))
  = calls world0 ++
    fst (run_calls stub_ok (DROIDConverter false) (input_dir_of "out" (Some "data"))
           (PyPath.of_str "out") [entry "a" ["x"]] sample_fs_out).
Proof.
  apply (proj2 (proj2 (proj2
           (malformed_entry_aborts_the_run stub_ok second_entry_malformed "out"
              (Some "data") "droid" false [entry "a" ["x"]]
              (VDict [("repo_id", VStr "b")]) [entry "c" ["z"]] "selected_videos"
              world0 eq_refl eq_refl)))
           (DROIDConverter false) sample_fs_out).
  - repeat constructor; apply entry_has_fields.
  - discriminate.
  - reflexivity.
  - exact stub_ok_returns_results.
  - exact setup_out_data.
Defined.

Example run_second_entry_malformed :
  map call_repo_id
    (calls (snd (convert_datasets stub_ok second_entry_malformed "out" (Some "data")
                   "droid" false world0)))
  = [VStr "a"].
Proof. vm_compute. reflexivity. Qed.


(** A converter stub that raises. *)
Definition stub_raise : converter -> value -> value -> path -> path ->
    gmap path node -> (exn + value) * gmap path node :=
  fun _ _ _ _ _ fs => (inl (Raised "connection reset"), fs).

(** The kinds of error the handler wraps: an input directory that is not
    there, a format without converter, a collaborator that raises, an output
    directory that cannot be made. *)
Example wrapped_errors :
  map (fun r => fst r)
    [convert_datasets stub_ok two_datasets "out" (Some "missing") "droid" false world0;
     convert_datasets stub_ok two_datasets "out" (Some "data") "DROID" false world0;
     convert_datasets stub_raise two_datasets "out" (Some "data") "droid" false world0;
     convert_datasets stub_ok two_datasets "missing/out/x" (Some "data") "droid" false
       (World (<[Path "" ["missing"] := Node false true true]> sample_fs) [] [])]
  = [inl (ClickException "Conversion failed: Input directory does not exist: missing"
            (Some (ClickException "Input directory does not exist: missing" None)));
     inl (ClickException
            "Conversion failed: Unsupported format: DROID. Supported formats: ['droid', 'vjepa2-ac']"
            (Some (ClickException
                     "Unsupported format: DROID. Supported formats: ['droid', 'vjepa2-ac']"
                     None)));
     inl (ClickException "Conversion failed: connection reset"
            (Some (Raised "connection reset")));
     inl (ClickException "Conversion failed: [Errno 20] Not a directory: 'missing/out/x'"
            (Some (OSError ENOTDIR "missing/out/x")))].
Proof. vm_compute. reflexivity. Qed.

Lemma default_format_fails_without_converting_witness :
  fst (convert_datasets stub_ok two_datasets "out" (Some "data") default_format false
         world0)
  = inl (ClickException
           "Conversion failed: Unsupported format: hdf5. Supported formats: ['droid', 'vjepa2-ac']"
           (Some (ClickException
                    "Unsupported format: hdf5. Supported formats: ['droid', 'vjepa2-ac']"
                    None))).
Proof.
  apply (proj2 (proj2 (proj2
           (default_format_fails_without_converting stub_ok two_datasets "out"
              (Some "data") false world0)))
           (entry "a" ["x"]) [entry "b" ["y"]] sample_fs_out).
  - reflexivity.
  - apply entry_has_fields.
  - discriminate.
  - exact setup_out_data.
Defined.

(** A tree in which [out/temp_downloads] is there, as after a download. *)
Definition fs_downloaded : gmap path node :=
  <[Path "" ["out"; "temp_downloads"] := Fs.new_dir]> sample_fs_out.

(** C9, at the failing input.  With no input path, every call is made on
    [out/temp_downloads] and the run ends by printing that it cleans up;
    the directory is still there after the run. *)
Theorem temp_downloads_is_not_removed :
  let run := convert_datasets stub_ok two_datasets "out" None "droid" true
               (World fs_downloaded [] []) in
  fst run = inr tt /\
  map call_input_dir (calls (snd run))
  = [Path "" ["out"; "temp_downloads"]; Path "" ["out"; "temp_downloads"]] /\
  List.last (out (snd run)) Downloading_datasets = Cleaning_up /\
  Fs.isdir (fs (snd run)) (Path "" ["out"; "temp_downloads"]) = true /\
  fs (snd run) = fs_downloaded.
Proof. cbv zeta. repeat split; by_evaluation. Qed.

(** * Further properties *)

(** ** The Path Validator: input paths *)

(** X1.  [validate_input_path] returns the path exactly when it exists, is a
    directory and is readable, and leaves the world as it was.  The three
    tests are made in this order, and the message of the first that fails is
    the one raised; it quotes the string given, not the path made from it. *)
Theorem validate_input_path_spec (input_path : string) (w : world) :
  let path := PyPath.of_str input_path in
  snd (validate_input_path input_path w) = w /\
  (Fs.exists_ (fs w) path = true /\ Fs.isdir (fs w) path = true /\
   Fs.access_r (fs w) path = true <->
   fst (validate_input_path input_path w) = inr path) /\
  (Fs.exists_ (fs w) path = false ->
   fst (validate_input_path input_path w)
   = inl (ClickException ("Input directory does not exist: " +:+ input_path) None)) /\
  (Fs.exists_ (fs w) path = true -> Fs.isdir (fs w) path = false ->
   fst (validate_input_path input_path w)
   = inl (ClickException ("Input path is not a directory: " +:+ input_path) None)) /\
  (Fs.exists_ (fs w) path = true -> Fs.isdir (fs w) path = true ->
   Fs.access_r (fs w) path = false ->
   fst (validate_input_path input_path w)
   = inl (ClickException ("No read permission for directory: " +:+ input_path) None)).
Proof.
  intros path.
  unfold validate_input_path, try_except, bind, path_exists, path_is_dir, os_access_r,
    raise, ret.
  fold path. cbn -[PyPath.of_str String.append].
  destruct (Fs.exists_ (fs w) path) eqn:Hex; cbn -[PyPath.of_str String.append];
    [destruct (Fs.isdir (fs w) path) eqn:Hd; cbn -[PyPath.of_str String.append];
     [destruct (Fs.access_r (fs w) path) eqn:Hr; cbn -[PyPath.of_str String.append] |] |].
  - repeat split; auto; discriminate.
  - repeat split; auto; try discriminate. intros (_ & _ & H). discriminate H.
  - repeat split; auto; try discriminate. intros (_ & H & _). discriminate H.
  - repeat split; auto; try discriminate. intros (H & _). discriminate H.
Qed.

(** A tree with a file and a directory that cannot be read. *)
Definition fs_mixed : gmap path node :=
  <[Path "" ["notes.txt"] := Node false true true]>
  (<[Path "" ["secret"] := Node true false true]> sample_fs).

Lemma validate_input_path_spec_witness :
  fst (validate_input_path "data" (World fs_mixed [] [])) = inr (Path "" ["data"]) /\
  fst (validate_input_path "nowhere" (World fs_mixed [] []))
  = inl (ClickException "Input directory does not exist: nowhere" None) /\
  fst (validate_input_path "./notes.txt" (World fs_mixed [] []))
  = inl (ClickException "Input path is not a directory: ./notes.txt" None) /\
  fst (validate_input_path "secret/" (World fs_mixed [] []))
  = inl (ClickException "No read permission for directory: secret/" None).
Proof.
  split; [| split; [| split]].
  - apply (proj1 (proj1 (proj2 (validate_input_path_spec "data" (World fs_mixed [] []))))).
    repeat split; by_evaluation.
  - apply (proj1 (proj2 (proj2 (validate_input_path_spec "nowhere"
                                  (World fs_mixed [] []))))).
    by_evaluation.
  - apply (proj1 (proj2 (proj2 (proj2 (validate_input_path_spec "./notes.txt"
                                         (World fs_mixed [] [])))))); by_evaluation.
  - apply (proj2 (proj2 (proj2 (proj2 (validate_input_path_spec "secret/"
                                         (World fs_mixed [] [])))))); by_evaluation.
Defined.

(** ** The Format Registry: the validator and the factory together *)

Lemma lower_char_idempotent (c : ascii) :
  PyStr.lower_char (PyStr.lower_char c) = PyStr.lower_char c.
Proof. destruct c as [[] [] [] [] [] [] [] []]; reflexivity. Qed.

Lemma lower_idempotent (s : string) : PyStr.lower (PyStr.lower s) = PyStr.lower s.
Proof.
  induction s as [| c s IH]; simpl; [reflexivity |].
  now rewrite lower_char_idempotent, IH.
Qed.



(** X2.  The factory resolves exactly the two format names, spelled in lower
    case, and hands the [verbose] flag to the converter it makes. *)
Theorem _get_converter_spec (format : string) (verbose : bool) (c : converter) :
  _get_converter format verbose = inr c <->
  (format = "droid" /\ c = DROIDConverter verbose) \/
  (format = "vjepa2-ac" /\ c = VJEPA2ACConverter verbose).
Proof.
  unfold _get_converter. split.
  - destruct (String.eqb_spec format "droid") as [-> | _].
    + intros H. injection H as <-. auto.
    + destruct (String.eqb_spec format "vjepa2-ac") as [-> | _]; [| discriminate].
      intros H. injection H as <-. auto.
  - intros [[-> ->] | [-> ->]]; reflexivity.
Qed.

Lemma _get_converter_spec_witness :
  _get_converter "vjepa2-ac" true = inr (VJEPA2ACConverter true).
Proof.
  apply (proj2 (_get_converter_spec "vjepa2-ac" true (VJEPA2ACConverter true))).
  right. split; reflexivity.
Defined.

(** X3.  What [validate_format] returns is a supported format in lower case: it
    validates to itself, and the factory resolves a converter for it.  The
    string as given need not be resolved: the factory does not fold case. *)
Theorem validate_format_then_get_converter (format g : string) (verbose : bool) :
  validate_format format = inr g ->
  g = PyStr.lower format /\
  In g get_supported_formats /\
  validate_format g = inr g /\
  exists c, _get_converter g verbose = inr c.
Proof.
  unfold validate_format. intros H.
  destruct (PyStr.mem (PyStr.lower format) get_supported_formats) eqn:Hmem;
    [| discriminate].
  simpl in H. injection H as <-.
  split; [reflexivity |]. apply mem_In in Hmem. split; [exact Hmem |]. split.
  - rewrite lower_idempotent. apply mem_In in Hmem. now rewrite Hmem.
  - now apply _get_converter_supported.
Qed.

Lemma validate_format_then_get_converter_witness :
  "droid" = PyStr.lower "Droid" /\
  In "droid" get_supported_formats /\
  validate_format "droid" = inr "droid" /\
  exists c, _get_converter "droid" false = inr c.
Proof.
  apply (validate_format_then_get_converter "Droid" "droid" false). reflexivity.
Defined.


(** ** The Conversion Orchestrator: setup *)

Lemma validate_input_path_returns (input_path : string) (w : world) (p : path) :
  fst (validate_input_path input_path w) = inr p ->
  p = PyPath.of_str input_path /\ Fs.exists_ (fs w) p = true.
Proof.
  unfold validate_input_path, try_except, bind, path_exists, path_is_dir, os_access_r,
    raise, ret.
  cbn -[PyPath.of_str String.append].
  destruct (Fs.exists_ (fs w) (PyPath.of_str input_path)) eqn:Hex;
    cbn -[PyPath.of_str String.append]; [| discriminate].
  destruct (Fs.isdir (fs w) (PyPath.of_str input_path));
    cbn -[PyPath.of_str String.append]; [| discriminate].
  destruct (Fs.access_r (fs w) (PyPath.of_str input_path));
    cbn -[PyPath.of_str String.append]; [| discriminate].
  intros H. injection H as <-. auto.
Qed.

Section Setup.

Variable convert_dataset :
  converter -> value -> value -> path -> path ->
  gmap path node -> (exn + value) * gmap path node.


(** X6.  An input path that is not there, once the output directory is made,
    stops the run before the loop: the exception names the path as given, no
    converter is called, and the output directory has been made. *)
Theorem convert_datasets_missing_input
    selection_data output_path ip format verbose w fs1 :
  Fs.mkdir_parents (fs w) (PyPath.of_str output_path) = inr fs1 ->
  Fs.exists_ fs1 (PyPath.of_str ip) = false ->
  let run := convert_datasets convert_dataset selection_data output_path (Some ip)
               format verbose w in
  fst run
  = inl (ClickException ("Conversion failed: Input directory does not exist: " +:+ ip)
           (Some (ClickException ("Input directory does not exist: " +:+ ip) None))) /\
  calls (snd run) = calls w /\
  fs (snd run) = fs1 /\
  Fs.isdir (fs (snd run)) (PyPath.of_str output_path) = true.
Proof.
  intros Hmk Hin run.
  assert (Hraises :
            raises (convert_datasets_body convert_dataset selection_data output_path
                      (Some ip) format verbose) w
              (ClickException ("Input directory does not exist: " +:+ ip) None)
              fs1 (calls w)).
  { unfold convert_datasets_body.
    eapply raises_bind_then; [apply returns_mkdir; exact Hmk |]. intros w1 Hfs1 Hks1.
    eapply raises_bind_then; [apply returns_when_echo |]. intros w2 Hfs2 Hks2.
    apply raises_bind_first.
    replace fs1 with (fs w2) by congruence. replace (calls w) with (calls w2) by congruence.
    apply resolve_input_dir_raises. congruence. }
  apply convert_datasets_raises in Hraises. destruct Hraises as (w' & Hrun & Hfs & Hks).
  subst run. rewrite Hrun. simpl.
  split; [reflexivity |]. split; [exact Hks |]. split; [exact Hfs |].
  rewrite Hfs. eapply mkdir_parents_isdir; eauto.
Qed.

(** X7.  An input path that [validate_input_path] accepts passes the test of
    [convert_datasets] as well, whatever output directory is made first. *)
Theorem validated_input_path_passes_setup input_path output_path w p fs1 :
  fst (validate_input_path input_path w) = inr p ->
  Fs.mkdir_parents (fs w) (PyPath.of_str output_path) = inr fs1 ->
  p = PyPath.of_str input_path /\
  setup_succeeds output_path (Some input_path) w fs1.
Proof.
  intros Hval Hmk.
  destruct (validate_input_path_returns input_path w p Hval) as [-> Hex].
  split; [reflexivity |]. split; [exact Hmk |].
  intros ip' H. injection H as <-.
  unfold Fs.exists_ in *. apply bool_decide_eq_true in Hex. destruct Hex as [n Hn].
  apply bool_decide_eq_true. exists n. eapply mkdir_parents_keeps; eauto.
Qed.

End Setup.


Lemma convert_datasets_missing_input_witness :
  fst (convert_datasets stub_ok two_datasets "out" (Some "nowhere") "droid" false world0)
  = inl (ClickException "Conversion failed: Input directory does not exist: nowhere"
           (Some (ClickException "Input directory does not exist: nowhere" None))) /\
  calls (snd (convert_datasets stub_ok two_datasets "out" (Some "nowhere") "droid" false
                world0)) = calls world0 /\
  fs (snd (convert_datasets stub_ok two_datasets "out" (Some "nowhere") "droid" false
             world0)) = sample_fs_out /\
  Fs.isdir (fs (snd (convert_datasets stub_ok two_datasets "out" (Some "nowhere") "droid"
                       false world0))) (PyPath.of_str "out") = true.
Proof.
  apply (convert_datasets_missing_input stub_ok two_datasets "out" "nowhere" "droid" false
           world0 sample_fs_out).
  - exact (proj1 setup_out_data).
  - by_evaluation.
Defined.

Lemma validated_input_path_passes_setup_witness :
  Path "" ["data"] = PyPath.of_str "data" /\
  setup_succeeds "out" (Some "data") world0 sample_fs_out.
Proof.
  apply (validated_input_path_passes_setup "data" "out" world0 (Path "" ["data"])
           sample_fs_out).
  - by_evaluation.
  - exact (proj1 setup_out_data).
Defined.

(** ** The Conversion Orchestrator: the loop and the summary *)

(** The statements that follow the loop. *)
Definition summary (datasets : value) (format : string) (verbose : bool)
    (output_dir : path) (input_path : option string) (input_dir : path) : M unit :=
  n <- lift (Py.len datasets) ;;
  echo (All_converted n (PyStr.upper format)) ;;
  echo (Output_directory output_dir) ;;
  (if bool_decide (input_path = None)
      && String.eqb (PyPath.name input_dir) "temp_downloads"
   then when verbose (echo Cleaning_up)
   else ret tt).

(** The lines the summary prints. *)
Definition summary_lines (n : nat) (format : string) (verbose : bool)
    (output_dir : path) (input_path : option string) : list line :=
  [All_converted n (PyStr.upper format); Output_directory output_dir]
  ++ (if bool_decide (input_path = None) && verbose then [Cleaning_up] else []).

(** A call that returned a result. *)
Definition returned_result (k : call) : Prop :=
  exists res, call_outcome k = inr res /\ is_result res.

Lemma name_child (p : path) (c : string) : PyPath.name (PyPath.child p c) = c.
Proof. unfold PyPath.name, PyPath.child. simpl. apply last_last. Qed.

Lemma summary_run ds format verbose output_path input_path w :
  summary (VList ds) format verbose (PyPath.of_str output_path) input_path
    (input_dir_of output_path input_path) w
  = (inr tt,
     World (fs w)
       (out w ++ summary_lines (length ds) format verbose (PyPath.of_str output_path)
                   input_path)
       (calls w)).
Proof.
  unfold summary, summary_lines, bind, lift, echo, when, ret, input_dir_of.
  destruct input_path as [ip |]; cbn [Py.len fs out calls bool_decide].
  - rewrite bool_decide_eq_false_2 by discriminate. simpl.
    now rewrite <- app_assoc.
  - rewrite bool_decide_eq_true_2 by reflexivity. rewrite name_child. simpl.
    destruct verbose; simpl; now rewrite <- !app_assoc.
Qed.

Section LoopAndSummary.

Variable convert_dataset :
  converter -> value -> value -> path -> path ->
  gmap path node -> (exn + value) * gmap path node.

(** A run whose setup succeeds is the loop followed by the summary, started
    with the filesystem the setup left and no call made. *)
Lemma convert_datasets_body_loop_summary selection_data output_path input_path
    format verbose ds w fs1 :
  Py.get selection_data "datasets" (VList []) = VList ds ->
  (verbose = true -> exists md, Py.get selection_data "metadata" (VDict []) = VDict md) ->
  setup_succeeds output_path input_path w fs1 ->
  exists w1,
    fs w1 = fs1 /\ calls w1 = calls w /\
    convert_datasets_body convert_dataset selection_data output_path input_path
      format verbose w
    = bind (process_datasets convert_dataset (VList ds) format verbose
              (input_dir_of output_path input_path) (PyPath.of_str output_path) 1 ds)
        (fun _ => summary (VList ds) format verbose (PyPath.of_str output_path)
                    input_path (input_dir_of output_path input_path))
        w1.
Proof.
  intros Hget Hmeta [Hmk Hin]. unfold convert_datasets_body. rewrite Hget.
  edestruct (@bind_returns unit) as (w1 & Hfs1 & Hks1 & ->);
    [apply returns_mkdir; exact Hmk |].
  edestruct (@bind_returns unit) as (w2 & Hfs2 & Hks2 & ->);
    [apply returns_when_echo |].
  edestruct (@bind_returns path) as (w3 & Hfs3 & Hks3 & ->).
  { apply resolve_input_dir_returns. rewrite Hfs2, Hfs1. exact Hin. }
  edestruct (@bind_returns unit) as (w4 & Hfs4 & Hks4 & ->).
  { instantiate (3 := tt). instantiate (1 := calls w3). instantiate (1 := fs w3).
    destruct verbose; [| apply returns_ret].
    destruct (Hmeta eq_refl) as [md Hmd]. rewrite Hmd.
    eapply returns_bind; [apply returns_lift |]. intros w4 <- <-.
    eapply returns_bind; [apply returns_echo |]. intros w5 <- <-.
    simpl Py.contains. eapply returns_bind; [apply returns_lift |]. intros w6 <- <-.
    case_bool_decide as Hsome; [| apply returns_ret].
    destruct Hsome as [x Hx]. simpl Py.getitem. rewrite Hx.
    eapply returns_bind; [apply returns_lift |]. intros w7 <- <-.
    apply returns_echo. }
  simpl Py.iter.
  edestruct (@bind_returns (list value)) as (w5 & Hfs5 & Hks5 & ->);
    [apply returns_lift |].
  exists w5. split; [congruence |]. split; [congruence |]. reflexivity.
Qed.

(** The loop over entries that have their fields when every call returns a
    result. *)
Lemma process_datasets_trace datasets format verbose input_dir output_dir c items :
  _get_converter format verbose = inr c ->
  Forall has_fields items ->
  (verbose = true -> (exists n, Py.len datasets = inr n) /\ Forall names_streams items) ->
  forall i w,
    Forall returned_result (fst (run_calls convert_dataset c input_dir output_dir items (fs w))) ->
    returns
      (process_datasets convert_dataset datasets format verbose input_dir output_dir i items)
      w tt
      (snd (run_calls convert_dataset c input_dir output_dir items (fs w)))
      (calls w ++ fst (run_calls convert_dataset c input_dir output_dir items (fs w))).
Proof.
  intros Hc Hfields Hverb.
  induction items as [| d rest IH]; intros i w; simpl.
  - intros _. rewrite app_nil_r. apply returns_ret.
  - inversion Hfields as [| ? ? [[r Hr] [sv Hsv]] Hrest]; subst.
    unfold field. rewrite Hr, Hsv.
    destruct (convert_dataset c r sv input_dir output_dir (fs w)) as [o fs'] eqn:Hcd.
    assert (Hverb' : verbose = true ->
                     (exists n, Py.len datasets = inr n) /\ Forall names_streams rest).
    { intros Hv. destruct (Hverb Hv) as [Hlen Hnames]. split; [exact Hlen |].
      now inversion Hnames. }
    specialize (IH Hrest Hverb').
    destruct (run_calls convert_dataset c input_dir output_dir rest fs') as [ks fs'']
      eqn:Hrun.
    simpl. intros Hall. inversion Hall as [| ? ? (res & Hres & Hisres) Hall']; subst.
    simpl in Hres. subst o.
    eapply returns_bind.
    + eapply process_dataset_returns; eauto.
      intros Hv. destruct (Hverb Hv) as [Hlen Hnames]. split; [exact Hlen |].
      inversion Hnames as [| ? ? [names Hn] _]; subst.
      rewrite Hsv in Hn. injection Hn as ->. eexists. apply join_names.
    + intros w1 Hfs1 Hks1. specialize (IH (S i) w1).
      rewrite Hfs1, Hks1, Hrun in IH. simpl in IH.
      rewrite <- app_assoc in IH. apply IH. exact Hall'.
Qed.

(** The turn in which the converter raises: the call is made, and what it
    raised leaves the turn. *)
Lemma process_dataset_call_raises datasets format verbose input_dir output_dir i d w
    c r sv e fs' :
  Py.getitem d "repo_id" = inr r ->
  Py.getitem d "selected_videos" = inr sv ->
  (verbose = true ->
   (exists n, Py.len datasets = inr n) /\ (exists j, Py.join ", " sv = inr j)) ->
  _get_converter format verbose = inr c ->
  convert_dataset c r sv input_dir output_dir (fs w) = (inl e, fs') ->
  raises
    (process_dataset convert_dataset datasets format verbose input_dir output_dir i d)
    w e fs' (calls w ++ [Call c r sv input_dir output_dir (inl e)]).
Proof.
  intros Hr Hsv Hverb Hc Hcall.
  unfold raises, process_dataset, bind, lift, call_convert_dataset.
  rewrite Hr, Hsv, Hc.
  destruct verbose.
  - destruct (Hverb eq_refl) as [[n Hn] [j Hj]].
    rewrite Hn, Hj. cbn [echo fs out calls]. rewrite Hcall.
    eexists. split; [reflexivity | auto].
  - cbn [echo fs out calls ret]. rewrite Hcall.
    eexists. split; [reflexivity | auto].
Qed.

(** The turn in which the converter returns an object whose [status] cannot
    be read: the call is made, and the turn raises. *)
Lemma process_dataset_status_unreadable datasets format verbose input_dir output_dir
    i d w c r sv res e fs' :
  Py.getitem d "repo_id" = inr r ->
  Py.getitem d "selected_videos" = inr sv ->
  (verbose = true ->
   (exists n, Py.len datasets = inr n) /\ (exists j, Py.join ", " sv = inr j)) ->
  _get_converter format verbose = inr c ->
  convert_dataset c r sv input_dir output_dir (fs w) = (inr res, fs') ->
  Py.getitem res "status" = inl e ->
  raises
    (process_dataset convert_dataset datasets format verbose input_dir output_dir i d)
    w e fs' (calls w ++ [Call c r sv input_dir output_dir (inr res)]).
Proof.
  intros Hr Hsv Hverb Hc Hcall Hst.
  unfold raises, process_dataset, bind, lift, call_convert_dataset.
  rewrite Hr, Hsv, Hc.
  destruct verbose.
  - destruct (Hverb eq_refl) as [[n Hn] [j Hj]].
    rewrite Hn, Hj. cbn [echo fs out calls]. rewrite Hcall, Hst.
    eexists. split; [reflexivity | auto].
  - cbn [echo fs out calls ret]. rewrite Hcall, Hst.
    eexists. split; [reflexivity | auto].
Qed.

(** A run in which the entries before [d] are converted and the turn on [d]
    raises: the run raises what the turn raised, wrapped, and ends where the
    turn ended. *)
Lemma convert_datasets_stops_at_turn selection_data output_path input_path format
    verbose pre d post c w fs1 e fs' ks' :
  let input_dir := input_dir_of output_path input_path in
  let output_dir := PyPath.of_str output_path in
  Py.lookup "datasets" selection_data = Some (VList (pre ++ d :: post)) ->
  Forall has_fields pre ->
  (verbose = true -> printable selection_data pre) ->
  _get_converter format verbose = inr c ->
  setup_succeeds output_path input_path w fs1 ->
  Forall returned_result (fst (run_calls convert_dataset c input_dir output_dir pre fs1)) ->
  (forall w2,
     fs w2 = snd (run_calls convert_dataset c input_dir output_dir pre fs1) ->
     calls w2 = calls w ++ fst (run_calls convert_dataset c input_dir output_dir pre fs1) ->
     raises
       (process_dataset convert_dataset (VList (pre ++ d :: post)) format verbose
          input_dir output_dir (S (length pre)) d) w2 e fs' ks') ->
  raises
    (convert_datasets convert_dataset selection_data output_path input_path format verbose)
    w (ClickException ("Conversion failed: " +:+ str_exn e) (Some e)) fs' ks'.
Proof.
  intros input_dir output_dir Hds Hfields Hprint Hc Hsetup Hpre Hturn.
  subst input_dir output_dir. apply convert_datasets_raises.
  destruct (convert_datasets_body_reaches_loop convert_dataset selection_data
              output_path input_path format verbose (pre ++ d :: post) w fs1 Hds)
    as (w1 & k & Hfs1 & Hks1 & Hbody); [| exact Hsetup |].
  { intros Hv. apply (Hprint Hv). }
  destruct (process_datasets_trace (VList (pre ++ d :: post)) format verbose
              (input_dir_of output_path input_path) (PyPath.of_str output_path)
              c pre Hc Hfields) with (i := 1%nat) (w := w1)
    as (w2 & Hloop & Hfs2 & Hks2).
  { intros Hv. split; [eexists; reflexivity | apply (Hprint Hv)]. }
  { rewrite Hfs1. exact Hpre. }
  rewrite Hfs1 in Hfs2, Hks2. rewrite Hks1 in Hks2.
  destruct (Hturn w2 Hfs2 Hks2) as (w3 & Hd & Hfs3 & Hks3).
  exists w3. rewrite Hbody.
  unfold bind at 1. rewrite process_datasets_app. unfold bind at 1. rewrite Hloop.
  simpl process_datasets. unfold bind at 1. rewrite Hd. auto.
Qed.

End LoopAndSummary.

Section LoopProperties.

Variable convert_dataset :
  converter -> value -> value -> path -> path ->
  gmap path node -> (exn + value) * gmap path node.

(** X8.  When the converter raises on an entry, after the entries before it were
    converted, the run stops there: it fails with what the converter raised,
    wrapped; the calls are those of the entries before and the call that
    raised, and no later entry is converted. *)
Theorem converter_exception_stops_the_run
    selection_data output_path input_path format verbose pre d post c w fs1 r sv e fs' :
  let input_dir := input_dir_of output_path input_path in
  let output_dir := PyPath.of_str output_path in
  Py.lookup "datasets" selection_data = Some (VList (pre ++ d :: post)) ->
  Forall has_fields pre ->
  Py.getitem d "repo_id" = inr r ->
  Py.getitem d "selected_videos" = inr sv ->
  (verbose = true -> printable selection_data (pre ++ [d])) ->
  _get_converter format verbose = inr c ->
  setup_succeeds output_path input_path w fs1 ->
  Forall returned_result (fst (run_calls convert_dataset c input_dir output_dir pre fs1)) ->
  convert_dataset c r sv input_dir output_dir
    (snd (run_calls convert_dataset c input_dir output_dir pre fs1)) = (inl e, fs') ->
  let run := convert_datasets convert_dataset selection_data output_path input_path
               format verbose w in
  fst run = inl (ClickException ("Conversion failed: " +:+ str_exn e) (Some e)) /\
  calls (snd run)
  = calls w ++ fst (run_calls convert_dataset c input_dir output_dir pre fs1)
    ++ [Call c r sv input_dir output_dir (inl e)] /\
  fs (snd run) = fs'.
Proof.
  intros input_dir output_dir Hds Hfields Hr Hsv Hprint Hc Hsetup Hpre Hcall run.
  subst input_dir output_dir.
  assert (Hprint' : verbose = true -> printable selection_data pre).
  { intros Hv. destruct (Hprint Hv) as [Hmd Hnames]. split; [exact Hmd |].
    apply Forall_app in Hnames. apply Hnames. }
  assert (Hraises :
            raises
              (convert_datasets convert_dataset selection_data output_path input_path
                 format verbose) w
              (ClickException ("Conversion failed: " +:+ str_exn e) (Some e)) fs'
              (calls w ++ fst (run_calls convert_dataset c
                                 (input_dir_of output_path input_path)
                                 (PyPath.of_str output_path) pre fs1)
               ++ [Call c r sv (input_dir_of output_path input_path)
                     (PyPath.of_str output_path) (inl e)])).
  { eapply convert_datasets_stops_at_turn; eauto.
    intros w2 Hfs2 Hks2. rewrite app_assoc, <- Hks2.
    apply process_dataset_call_raises; auto.
    - intros Hv. split; [eexists; reflexivity |].
      destruct (Hprint Hv) as [_ Hnames]. apply Forall_app in Hnames.
      destruct Hnames as [_ Hd]. inversion Hd as [| ? ? [names Hn] _]; subst.
      rewrite Hsv in Hn. injection Hn as ->. eexists. apply join_names.
    - rewrite Hfs2. exact Hcall. }
  destruct Hraises as (w' & Hrun & Hfs & Hks).
  subst run. rewrite Hrun. auto.
Qed.

(** X9.  When the converter returns an object whose [status] cannot be read (it
    has no such key, or is no dict), the run stops at that entry in the same
    way, after the call was made. *)
Theorem unreadable_status_stops_the_run
    selection_data output_path input_path format verbose pre d post c w fs1 r sv res e fs' :
  let input_dir := input_dir_of output_path input_path in
  let output_dir := PyPath.of_str output_path in
  Py.lookup "datasets" selection_data = Some (VList (pre ++ d :: post)) ->
  Forall has_fields pre ->
  Py.getitem d "repo_id" = inr r ->
  Py.getitem d "selected_videos" = inr sv ->
  (verbose = true -> printable selection_data (pre ++ [d])) ->
  _get_converter format verbose = inr c ->
  setup_succeeds output_path input_path w fs1 ->
  Forall returned_result (fst (run_calls convert_dataset c input_dir output_dir pre fs1)) ->
  convert_dataset c r sv input_dir output_dir
    (snd (run_calls convert_dataset c input_dir output_dir pre fs1)) = (inr res, fs') ->
  Py.getitem res "status" = inl e ->
  let run := convert_datasets convert_dataset selection_data output_path input_path
               format verbose w in
  fst run = inl (ClickException ("Conversion failed: " +:+ str_exn e) (Some e)) /\
  calls (snd run)
  = calls w ++ fst (run_calls convert_dataset c input_dir output_dir pre fs1)
    ++ [Call c r sv input_dir output_dir (inr res)].
Proof.
  intros input_dir output_dir Hds Hfields Hr Hsv Hprint Hc Hsetup Hpre Hcall Hst run.
  subst input_dir output_dir.
  assert (Hprint' : verbose = true -> printable selection_data pre).
  { intros Hv. destruct (Hprint Hv) as [Hmd Hnames]. split; [exact Hmd |].
    apply Forall_app in Hnames. apply Hnames. }
  assert (Hraises :
            raises
              (convert_datasets convert_dataset selection_data output_path input_path
                 format verbose) w
              (ClickException ("Conversion failed: " +:+ str_exn e) (Some e)) fs'
              (calls w ++ fst (run_calls convert_dataset c
                                 (input_dir_of output_path input_path)
                                 (PyPath.of_str output_path) pre fs1)
               ++ [Call c r sv (input_dir_of output_path input_path)
                     (PyPath.of_str output_path) (inr res)])).
  { eapply convert_datasets_stops_at_turn; eauto.
    intros w2 Hfs2 Hks2. rewrite app_assoc, <- Hks2.
    eapply process_dataset_status_unreadable; eauto.
    - intros Hv. split; [eexists; reflexivity |].
      destruct (Hprint Hv) as [_ Hnames]. apply Forall_app in Hnames.
      destruct Hnames as [_ Hd]. inversion Hd as [| ? ? [names Hn] _]; subst.
      rewrite Hsv in Hn. injection Hn as ->. eexists. apply join_names.
    - rewrite Hfs2. exact Hcall. }
  destruct Hraises as (w' & Hrun & Hfs & Hks).
  subst run. rewrite Hrun. auto.
Qed.

(** X10.  In a verbose run, the turn on an entry whose result has the status
    ["error"] prints the failure line and then, all the same, the line that
    says the dataset was converted successfully. *)
Theorem verbose_turn_reports_success_after_error
    datasets format input_dir output_dir i d w c r sv n j res message fs' :
  Py.getitem d "repo_id" = inr r ->
  Py.getitem d "selected_videos" = inr sv ->
  Py.len datasets = inr n ->
  Py.join ", " sv = inr j ->
  _get_converter format true = inr c ->
  convert_dataset c r sv input_dir output_dir (fs w) = (inr res, fs') ->
  Py.getitem res "status" = inr (VStr "error") ->
  Py.getitem res "message" = inr message ->
  process_dataset convert_dataset datasets format true input_dir output_dir i d w
  = (inr tt,
     World fs'
       (out w ++ [Converting_ith_dataset i n r; Selected_videos j;
                  Converting_dataset r; Output_file output_dir;
                  Cross message; Converted_successfully r])
       (calls w ++ [Call c r sv input_dir output_dir (inr res)])).
Proof.
  intros Hr Hsv Hn Hj Hc Hcall Hst Hmsg.
  unfold process_dataset, bind, lift, call_convert_dataset.
  rewrite Hr, Hsv, Hc, Hn, Hj. cbn [echo fs out calls]. rewrite Hcall, Hst.
  cbn [Py.eq_str String.eqb Ascii.eqb Bool.eqb]. rewrite Hmsg.
  unfold when, echo. cbn [fs out calls]. rewrite <- !app_assoc. reflexivity.
Qed.

(** X11.  A run that returns ends by printing the summary, and the summary counts
    every entry of [datasets], whatever the status of the results: the number
    of entries, the format in upper case, the output directory, and, in a
    verbose run without input path, the line about cleaning up. *)
Theorem summary_counts_every_entry
    selection_data output_path input_path format verbose ds c w fs1 :
  Py.lookup "datasets" selection_data = Some (VList ds) ->
  Forall has_fields ds ->
  (verbose = true -> printable selection_data ds) ->
  _get_converter format verbose = inr c ->
  returns_results convert_dataset ->
  setup_succeeds output_path input_path w fs1 ->
  let run := convert_datasets convert_dataset selection_data output_path input_path
               format verbose w in
  fst run = inr tt /\
  exists lines,
    out (snd run)
    = lines ++ summary_lines (length ds) format verbose (PyPath.of_str output_path)
                 input_path.
Proof.
  intros Hds Hfields Hprint Hc Hres Hsetup run.
  assert (Hget : Py.get selection_data "datasets" (VList []) = VList ds).
  { unfold Py.get. now rewrite Hds. }
  destruct (convert_datasets_body_loop_summary convert_dataset selection_data output_path
              input_path format verbose ds w fs1 Hget) as (w1 & _ & _ & Hbody);
    [| exact Hsetup |].
  { intros Hv. apply (Hprint Hv). }
  destruct (process_datasets_returns convert_dataset (VList ds) format verbose
              (input_dir_of output_path input_path) (PyPath.of_str output_path) c ds
              Hc Hres Hfields) with (i := 1%nat) (w := w1) as (w2 & Hloop & _).
  { intros Hv. split; [eexists; reflexivity | apply (Hprint Hv)]. }
  assert (Hrun : run = (inr tt,
                        World (fs w2)
                          (out w2 ++ summary_lines (length ds) format verbose
                                       (PyPath.of_str output_path) input_path)
                          (calls w2))).
  { subst run. unfold convert_datasets, try_except. rewrite Hbody.
    unfold bind at 1. rewrite Hloop, summary_run. reflexivity. }
  rewrite Hrun. split; [reflexivity |]. exists (out w2). reflexivity.
Qed.


End LoopProperties.

(** ** The Conversion Orchestrator: what it never removes *)

(** A computation after which every node of the filesystem is still there. *)
Definition grows_fs {A} (c : M A) : Prop :=
  forall w q, is_Some (fs w !! q) -> is_Some (fs (snd (c w)) !! q).

Lemma grows_fs_keeps {A} (c : M A) : keeps_fs c -> grows_fs c.
Proof. intros Hc w q Hq. now rewrite Hc. Qed.

Lemma grows_fs_bind {A B} (c : M A) (k : A -> M B) :
  grows_fs c -> (forall a, grows_fs (k a)) -> grows_fs (bind c k).
Proof.
  intros Hc Hk w q Hq. unfold bind. specialize (Hc w q Hq).
  destruct (c w) as [[e | a] w']; simpl in *; [exact Hc |].
  now apply Hk.
Qed.

Lemma grows_fs_mkdir (p : path) : grows_fs (mkdir_parents_exist_ok p).
Proof.
  intros w q [n Hq]. unfold mkdir_parents_exist_ok.
  destruct (Fs.mkdir_parents (fs w) p) as [e | fs1] eqn:Hmk; simpl; [eauto |].
  exists n. eapply mkdir_parents_keeps; eauto.
Qed.

Section NeverRemoves.

Variable convert_dataset :
  converter -> value -> value -> path -> path ->
  gmap path node -> (exn + value) * gmap path node.

(** The collaborator removes no node of the filesystem. *)
Definition never_deletes : Prop :=
  forall c r sv i o fs q,
    is_Some (fs !! q) -> is_Some (snd (convert_dataset c r sv i o fs) !! q).

Hypothesis converter_never_deletes : never_deletes.

Lemma grows_fs_call c r sv input_dir output_dir :
  grows_fs (call_convert_dataset convert_dataset c r sv input_dir output_dir).
Proof.
  intros w q Hq. unfold call_convert_dataset.
  pose proof (converter_never_deletes c r sv input_dir output_dir (fs w) q Hq) as H.
  destruct (convert_dataset c r sv input_dir output_dir (fs w)) as [res fs'].
  exact H.
Qed.

Lemma grows_fs_process_dataset datasets format verbose input_dir output_dir i d :
  grows_fs
    (process_dataset convert_dataset datasets format verbose input_dir output_dir i d).
Proof.
  unfold process_dataset.
  do 6 (apply grows_fs_bind; [apply grows_fs_keeps; frame | intros ?]).
  apply grows_fs_bind; [apply grows_fs_call | intros ?].
  apply grows_fs_keeps. frame.
Qed.

Lemma grows_fs_process_datasets datasets format verbose input_dir output_dir items :
  forall i,
    grows_fs
      (process_datasets convert_dataset datasets format verbose input_dir output_dir i
         items).
Proof.
  induction items as [| d rest IH]; intros i; simpl.
  - apply grows_fs_keeps. auto with frame.
  - apply grows_fs_bind; [apply grows_fs_process_dataset | intros ?; apply IH].
Qed.

(** X13.  Whatever the arguments and however the run ends, a node that was in the
    filesystem before [convert_datasets] is in it afterwards, as long as the
    converter removes none: in particular nothing is cleaned up. *)
Theorem convert_datasets_removes_nothing
    selection_data output_path input_path format verbose w q :
  is_Some (fs w !! q) ->
  is_Some (fs (snd (convert_datasets convert_dataset selection_data output_path
                      input_path format verbose w)) !! q).
Proof.
  rewrite convert_datasets_world. revert w q.
  change (grows_fs (convert_datasets_body convert_dataset selection_data output_path
                      input_path format verbose)).
  unfold convert_datasets_body.
  apply grows_fs_bind; [apply grows_fs_mkdir | intros ?].
  do 4 (apply grows_fs_bind; [apply grows_fs_keeps; frame | intros ?]).
  apply grows_fs_bind; [apply grows_fs_process_datasets | intros ?].
  apply grows_fs_keeps. frame.
Qed.

End NeverRemoves.

Lemma stub_ok_never_deletes : never_deletes stub_ok.
Proof. intros c r sv i o fs q Hq. exact Hq. Qed.

Lemma convert_datasets_removes_nothing_witness :
  is_Some (fs (snd (convert_datasets stub_ok two_datasets "out" None "droid" true
                      (World fs_downloaded [] [])))
           !! Path "" ["out"; "temp_downloads"]).
Proof.
  apply (convert_datasets_removes_nothing stub_ok stub_ok_never_deletes two_datasets
           "out" None "droid" true (World fs_downloaded [] [])
           (Path "" ["out"; "temp_downloads"])).
  exists Fs.new_dir. apply lookup_insert_eq.
Defined.

(** ** Further properties at concrete runs *)

(** A converter stub that raises on the dataset [b]. *)
Definition stub_raise_on_b : converter -> value -> value -> path -> path ->
    gmap path node -> (exn + value) * gmap path node :=
  fun c r sv i o fs =>
    if Py.eq_str r "b" then (inl (Raised "connection reset"), fs)
    else stub_ok c r sv i o fs.

(** A converter stub that returns [None] on the dataset [b]. *)
Definition stub_none_on_b : converter -> value -> value -> path -> path ->
    gmap path node -> (exn + value) * gmap path node :=
  fun c r sv i o fs =>
    if Py.eq_str r "b" then (inr VNone, fs) else stub_ok c r sv i o fs.

Definition three_datasets : list (string * value) :=
  [("datasets", VList [entry "a" ["x"]; entry "b" ["y"]; entry "c" ["z"]])].

Lemma returned_result_stub_ok_a input_dir output_dir fs :
  Forall returned_result
    (fst (run_calls stub_raise_on_b (DROIDConverter false) input_dir output_dir
            [entry "a" ["x"]] fs)) /\
  Forall returned_result
    (fst (run_calls stub_none_on_b (DROIDConverter false) input_dir output_dir
            [entry "a" ["x"]] fs)).
Proof.
  split; simpl; repeat constructor; eexists; (split; [reflexivity |]);
    split; eexists; reflexivity.
Qed.

Lemma converter_exception_stops_the_run_witness :
  fst (convert_datasets stub_raise_on_b three_datasets "out" (Some "data") "droid" false
         world0)
  = inl (ClickException ("Conversion failed: " +:+ str_exn (Raised "connection reset"))
           (Some (Raised "connection reset"))) /\
  calls (snd (convert_datasets stub_raise_on_b three_datasets "out" (Some "data") "droid"
                false world0))
  = calls world0
    ++ fst (run_calls stub_raise_on_b (DROIDConverter false)
              (input_dir_of "out" (Some "data")) (PyPath.of_str "out")
              [entry "a" ["x"]] sample_fs_out)
    ++ [Call (DROIDConverter false) (VStr "b") (VList [VStr "y"])
          (input_dir_of "out" (Some "data")) (PyPath.of_str "out")
          (inl (Raised "connection reset"))] /\
  fs (snd (convert_datasets stub_raise_on_b three_datasets "out" (Some "data") "droid"
             false world0)) = sample_fs_out.
Proof.
  apply (converter_exception_stops_the_run stub_raise_on_b three_datasets "out"
           (Some "data") "droid" false [entry "a" ["x"]] (entry "b" ["y"])
           [entry "c" ["z"]] (DROIDConverter false) world0 sample_fs_out
           (VStr "b") (VList [VStr "y"]) (Raised "connection reset") sample_fs_out).
  - reflexivity.
  - repeat constructor; apply entry_has_fields.
  - reflexivity.
  - reflexivity.
  - discriminate.
  - reflexivity.
  - exact setup_out_data.
  - apply returned_result_stub_ok_a.
  - reflexivity.
Defined.

Lemma unreadable_status_stops_the_run_witness :
  fst (convert_datasets stub_none_on_b three_datasets "out" (Some "data") "droid" false
         world0)
  = inl (ClickException
           ("Conversion failed: "
            +:+ str_exn (TypeError "'NoneType' object is not subscriptable"))
           (Some (TypeError "'NoneType' object is not subscriptable"))) /\
  calls (snd (convert_datasets stub_none_on_b three_datasets "out" (Some "data") "droid"
                false world0))
  = calls world0
    ++ fst (run_calls stub_none_on_b (DROIDConverter false)
              (input_dir_of "out" (Some "data")) (PyPath.of_str "out")
              [entry "a" ["x"]] sample_fs_out)
    ++ [Call (DROIDConverter false) (VStr "b") (VList [VStr "y"])
          (input_dir_of "out" (Some "data")) (PyPath.of_str "out") (inr VNone)].
Proof.
  apply (unreadable_status_stops_the_run stub_none_on_b three_datasets "out"
           (Some "data") "droid" false [entry "a" ["x"]] (entry "b" ["y"])
           [entry "c" ["z"]] (DROIDConverter false) world0 sample_fs_out
           (VStr "b") (VList [VStr "y"]) VNone
           (TypeError "'NoneType' object is not subscriptable") sample_fs_out).
  - reflexivity.
  - repeat constructor; apply entry_has_fields.
  - reflexivity.
  - reflexivity.
  - discriminate.
  - reflexivity.
  - exact setup_out_data.
  - apply returned_result_stub_ok_a.
  - reflexivity.
  - reflexivity.
Defined.

Example run_raise_on_b :
  map call_repo_id
    (calls (snd (convert_datasets stub_raise_on_b three_datasets "out" (Some "data")
                   "droid" false world0)))
  = [VStr "a"; VStr "b"].
Proof. by_evaluation. Qed.

Lemma verbose_turn_reports_success_after_error_witness :
  process_dataset stub_error (VList [entry "a" ["x"; "y"]]) "droid" true
    (Path "" ["data"]) (Path "" ["out"]) 1 (entry "a" ["x"; "y"]) world0
  = (inr tt,
     World sample_fs
       (out world0
        ++ [Converting_ith_dataset 1 1 (VStr "a"); Selected_videos "x, y";
            Converting_dataset (VStr "a"); Output_file (Path "" ["out"]);
            Cross (VStr "no episodes"); Converted_successfully (VStr "a")])
       (calls world0
        ++ [Call (DROIDConverter true) (VStr "a") (VList [VStr "x"; VStr "y"])
              (Path "" ["data"]) (Path "" ["out"])
              (inr (VDict [("status", VStr "error"); ("message", VStr "no episodes")]))])).
Proof.
  apply (verbose_turn_reports_success_after_error stub_error
           (VList [entry "a" ["x"; "y"]]) "droid" (Path "" ["data"]) (Path "" ["out"])
           1 (entry "a" ["x"; "y"]) world0 (DROIDConverter true) (VStr "a")
           (VList [VStr "x"; VStr "y"]) 1 "x, y"
           (VDict [("status", VStr "error"); ("message", VStr "no episodes")])
           (VStr "no episodes") sample_fs);
    reflexivity.
Defined.

Lemma summary_counts_every_entry_witness :
  fst (convert_datasets stub_error two_datasets "out" None "droid" true world0) = inr tt /\
  exists lines,
    out (snd (convert_datasets stub_error two_datasets "out" None "droid" true world0))
    = lines ++ summary_lines 2 "droid" true (PyPath.of_str "out") None.
Proof.
  apply (summary_counts_every_entry stub_error two_datasets "out" None "droid" true
           [entry "a" ["x"]; entry "b" ["y"]] (DROIDConverter true) world0 sample_fs_out).
  - reflexivity.
  - repeat constructor; apply entry_has_fields.
  - intros _. split; [exists []; reflexivity |].
    repeat constructor; apply entry_names_streams.
  - reflexivity.
  - exact stub_error_returns_results.
  - exact setup_out_download.
Defined.

Example summary_lines_verbose_download :
  summary_lines 2 "droid" true (Path "" ["out"]) None
  = [All_converted 2 "DROID"; Output_directory (Path "" ["out"]); Cleaning_up].
Proof. reflexivity. Qed.


(** ** The Estimation Helper: what it raises *)

(** The numbers: what [/] divides. *)
Definition is_number (v : value) : bool :=
  match v with
  | VInt _ | VBool _ | VFloat _ => true
  | _ => false
  end.

(** X14.  [estimate_conversion_time] raises [AttributeError] when [metadata] is
    there and is no dict, and [TypeError] when [total_frames] has a true
    truth value and is no number (a string, a list, a dict); a float never
    makes it raise. *)
Theorem estimate_conversion_time_errors (selection_data : list (string * value)) :
  (forall m,
     Py.lookup "metadata" selection_data = Some m ->
     (forall md, m <> VDict md) ->
     estimate_conversion_time selection_data
     = inl (AttributeError ("'" +:+ Py.type_name m +:+ "' object has no attribute 'get'"))) /\
  (forall md total_frames,
     Py.get selection_data "metadata" (VDict []) = VDict md ->
     Py.lookup "total_frames" md = Some total_frames ->
     Py.truthy total_frames = true ->
     is_number total_frames = false ->
     estimate_conversion_time selection_data
     = inl (TypeError ("unsupported operand type(s) for /: '"
                       +:+ Py.type_name total_frames +:+ "' and 'int'"))) /\
  (forall md f,
     Py.get selection_data "metadata" (VDict []) = VDict md ->
     Py.lookup "total_frames" md = Some (VFloat f) ->
     exists r, estimate_conversion_time selection_data = inr r).
Proof.
  unfold estimate_conversion_time. split; [| split].
  - intros m Hm Hnot. unfold Py.get. rewrite Hm.
    destruct m; try reflexivity. exfalso. now apply (Hnot d).
  - intros md tf -> Htf Htruthy Hnum. unfold Py.get_attr, Py.get. rewrite Htf, Htruthy.
    destruct tf; try discriminate Hnum; reflexivity.
  - intros md f -> Hf. unfold Py.get_attr, Py.get. rewrite Hf.
    destruct (Py.truthy (VFloat f)); [| eauto]. simpl Py.truediv_int. cbv beta iota.
    repeat match goal with
           | |- context [if ?b then _ else _] => destruct b
           end; eauto.
Qed.

Lemma estimate_conversion_time_errors_witness :
  estimate_conversion_time [("metadata", VList [])]
  = inl (AttributeError "'list' object has no attribute 'get'") /\
  estimate_conversion_time [("metadata", VDict [("total_frames", VStr "1997")])]
  = inl (TypeError "unsupported operand type(s) for /: 'str' and 'int'").
Proof.
  split.
  - apply (proj1 (estimate_conversion_time_errors [("metadata", VList [])]) (VList []));
      [reflexivity | discriminate].
  - apply (proj1 (proj2 (estimate_conversion_time_errors
                           [("metadata", VDict [("total_frames", VStr "1997")])]))
             [("total_frames", VStr "1997")] (VStr "1997")); reflexivity.
Defined.

(** ** The Conversion Orchestrator: runs compared *)

Section Compared.

Variable convert_dataset :
  converter -> value -> value -> path -> path ->
  gmap path node -> (exn + value) * gmap path node.

(** X15.  A run that is not verbose reads [datasets] and nothing else of the
    selection document: two documents with the same [datasets] give the same
    run, whatever their [metadata]. *)
Theorem quiet_run_reads_only_datasets
    selection_data selection_data' output_path input_path format w :
  Py.get selection_data "datasets" (VList [])
  = Py.get selection_data' "datasets" (VList []) ->
  convert_datasets convert_dataset selection_data output_path input_path format false w
  = convert_datasets convert_dataset selection_data' output_path input_path format false w.
Proof.
  intros Hds. unfold convert_datasets, convert_datasets_body. now rewrite Hds.
Qed.

(** X16.  The setup of a run that succeeded succeeds again on the filesystem it
    left, and leaves it as it is: making the output directory a second time
    is no error and changes nothing. *)
Theorem setup_is_idempotent output_path input_path w fs1 w' :
  setup_succeeds output_path input_path w fs1 ->
  fs w' = fs1 ->
  setup_succeeds output_path input_path w' fs1.
Proof.
  intros [Hmk Hin] Hfs. split; [| exact Hin]. rewrite Hfs.
  apply mkdir_parents_isdir in Hmk. unfold Fs.mkdir_parents.
  destruct (PyPath.of_str output_path) as [r t]. simpl.
  unfold Fs.isdir in Hmk.
  destruct (fs1 !! Path r t) as [n |] eqn:Hn; [| discriminate].
  destruct (rev t) as [| x rt] eqn:Hrev.
  - simpl. unfold Fs.os_mkdir.
    assert (Ht : t = []) by (apply (f_equal (@rev string)) in Hrev;
                             now rewrite rev_involutive in Hrev).
    subst t. rewrite Hn. unfold Fs.isdir. now rewrite Hn, Hmk.
  - simpl. unfold Fs.os_mkdir.
    assert (Ht : rev rt ++ [x] = t).
    { apply (f_equal (@rev string)) in Hrev. rewrite rev_involutive in Hrev.
      now rewrite Hrev. }
    rewrite Ht, Hn. unfold Fs.isdir. now rewrite Hn, Hmk.
Qed.

End Compared.

Lemma quiet_run_reads_only_datasets_witness :
  convert_datasets stub_ok (("metadata", VInt 5) :: two_datasets) "out" None "droid" false
    world0
  = convert_datasets stub_ok two_datasets "out" None "droid" false world0.
Proof.
  apply (quiet_run_reads_only_datasets stub_ok (("metadata", VInt 5) :: two_datasets)
           two_datasets "out" None "droid" world0).
  reflexivity.
Defined.

(** The same document in a verbose run: the run fails on [metadata], after the
    output directory was made and before any conversion. *)
Example verbose_run_reads_metadata :
  fst (convert_datasets stub_ok (("metadata", VInt 5) :: two_datasets) "out" None "droid"
         true world0)
  = inl (ClickException "Conversion failed: argument of type 'int' is not iterable"
           (Some (TypeError "argument of type 'int' is not iterable"))) /\
  calls (snd (convert_datasets stub_ok (("metadata", VInt 5) :: two_datasets) "out" None
                "droid" true world0)) = [].
Proof. split; by_evaluation. Qed.

Lemma setup_is_idempotent_witness :
  setup_succeeds "out" (Some "data") (World sample_fs_out [] []) sample_fs_out.
Proof.
  apply (setup_is_idempotent "out" (Some "data") world0 sample_fs_out
           (World sample_fs_out [] [])).
  - exact setup_out_data.
  - reflexivity.
Defined.

(** * test_setup: the test cases and their commands *)

Module TestSetup.

Definition TEST_CASES : list string :=
  ["download_single_dataset";
   "download_multi_datasets";
   "convert_vjepa2ac_single_dataset";
   "convert_vjepa2ac_multi_datasets";
   "convert_droid_single_dataset";
   "convert_droid_multi_datasets"].

(** How a call of [run_test_case] ends: it returns, or it reads the local
    variable [cmd] before any branch has bound it. *)
Inductive ending :=
| Returned
| UnboundLocalError (name : string).

Definition newline : string := String (ascii_of_nat 10) "".

(** ['=' * n]. *)
Fixpoint rule (n : nat) : string :=
  match n with
  | O => ""
  | S k => "=" +:+ rule k
  end.

(** The JSON file of a test case and the line that tells which one it is. *)
Definition json_file_of (test_case : string) (single_json multi_json : path)
  : path * string :=
  if PyStr.contains "single_dataset" test_case then
    (single_json, "Using: single_dataset.json (1 dataset, 3 episodes)")
  else
    (multi_json, "Using: multi_datasets.json (4 datasets, 1,387 episodes)").

(** The variable [cmd] after the chain of [if]/[elif] on the prefix of the
    test case: bound in three branches, and left unbound when none applies. *)
Definition command (test_case : string) (test_folder json_file : path) : option string :=
  if String.prefix "download_" test_case then
    Some ("lerobotlab download " +:+ PyPath.to_str json_file +:+ " --download-path "
          +:+ PyPath.to_str test_folder +:+ "/download --verbose")
  else if String.prefix "convert_vjepa2ac_" test_case then
    Some ("lerobotlab convert " +:+ PyPath.to_str json_file +:+ " --output-path "
          +:+ PyPath.to_str test_folder +:+ "/vjepa2_ac --format vjepa2-ac --verbose")
  else if String.prefix "convert_droid_" test_case then
    Some ("lerobotlab convert " +:+ PyPath.to_str json_file +:+ " --output-path "
          +:+ PyPath.to_str test_folder +:+ "/droid --format droid --verbose")
  else None.

(** [run_test_case]: the lines it prints, and how it ends. *)
Definition run_test_case (test_case : string) (test_folder single_json multi_json : path)
  : list string * ending :=
  if negb (PyStr.mem test_case TEST_CASES) then
    (["Error: Unknown test case '" +:+ test_case +:+ "'";
      "Available test cases: " +:+ PyStr.join ", " TEST_CASES],
     Returned)
  else
    let banner := [newline +:+ rule 60;
                   "RUNNING TEST CASE: " +:+ PyStr.upper test_case;
                   rule 60] in
    let '(json_file, using_line) := json_file_of test_case single_json multi_json in
    match command test_case test_folder json_file with
    | Some cmd =>
        (banner ++ [using_line; newline +:+ "Command: " +:+ cmd;
                    newline +:+ "To run this test case manually:";
                    "  " +:+ cmd;
                    rule 60],
         Returned)
    | None =>
        (banner ++ [using_line; newline +:+ "To run this test case manually:"],
         UnboundLocalError "cmd")
    end.

End TestSetup.

Example run_droid_single :
  TestSetup.run_test_case "convert_droid_single_dataset" (Path "" ["test_env"])
    (Path "" ["test_env"; "single_dataset.json"])
    (Path "" ["test_env"; "multi_datasets.json"])
  = ([TestSetup.newline +:+ TestSetup.rule 60;
      "RUNNING TEST CASE: CONVERT_DROID_SINGLE_DATASET";
      TestSetup.rule 60;
      "Using: single_dataset.json (1 dataset, 3 episodes)";
      TestSetup.newline
      +:+ "Command: lerobotlab convert test_env/single_dataset.json --output-path test_env/droid --format droid --verbose";
      TestSetup.newline +:+ "To run this test case manually:";
      "  lerobotlab convert test_env/single_dataset.json --output-path test_env/droid --format droid --verbose";
      TestSetup.rule 60],
     TestSetup.Returned).
Proof. reflexivity. Qed.

(** X17.  Every test case of [TEST_CASES] falls in one of the three branches that
    bind [cmd], so that [run_test_case] always returns: on a name that is not
    a test case it returns before the branches, after printing the error and
    the list of test cases and nothing else. *)
Theorem run_test_case_always_returns
    (test_case : string) (test_folder single_json multi_json : path) :
  snd (TestSetup.run_test_case test_case test_folder single_json multi_json)
  = TestSetup.Returned /\
  (~ In test_case TestSetup.TEST_CASES ->
   fst (TestSetup.run_test_case test_case test_folder single_json multi_json)
   = ["Error: Unknown test case '" +:+ test_case +:+ "'";
      "Available test cases: download_single_dataset, download_multi_datasets, convert_vjepa2ac_single_dataset, convert_vjepa2ac_multi_datasets, convert_droid_single_dataset, convert_droid_multi_datasets"]).
Proof.
  unfold TestSetup.run_test_case.
  destruct (PyStr.mem test_case TestSetup.TEST_CASES) eqn:Hmem; simpl negb; cbv iota.
  - split; [| intros Hnot; apply mem_In in Hmem; contradiction].
    apply mem_In in Hmem. simpl in Hmem.
    destruct Hmem as [<- | [<- | [<- | [<- | [<- | [<- | []]]]]]]; reflexivity.
  - split; [reflexivity |]. intros _. reflexivity.
Qed.

Lemma run_test_case_always_returns_witness :
  fst (TestSetup.run_test_case "convert_hdf5_single_dataset" (Path "" ["test_env"])
         (Path "" ["test_env"; "single_dataset.json"])
         (Path "" ["test_env"; "multi_datasets.json"]))
  = ["Error: Unknown test case '" +:+ "convert_hdf5_single_dataset" +:+ "'";
     "Available test cases: download_single_dataset, download_multi_datasets, convert_vjepa2ac_single_dataset, convert_vjepa2ac_multi_datasets, convert_droid_single_dataset, convert_droid_multi_datasets"].
Proof.
  apply (proj2 (run_test_case_always_returns "convert_hdf5_single_dataset"
                  (Path "" ["test_env"]) (Path "" ["test_env"; "single_dataset.json"])
                  (Path "" ["test_env"; "multi_datasets.json"]))).
  simpl. intros H. repeat (destruct H as [H | H]; [discriminate H |]). exact H.
Defined.

(** X18.  The command of a conversion test case asks for a format that the Format
    Registry supports: [validate_format] accepts it as it is and the factory
    resolves a converter for it.  The JSON file is the single-dataset one for
    the test cases named after it and the multi-dataset one for the others. *)
Theorem test_case_commands_use_supported_formats
    (test_case : string) (test_folder single_json multi_json : path) :
  In test_case TestSetup.TEST_CASES ->
  let json_file := fst (TestSetup.json_file_of test_case single_json multi_json) in
  (In test_case ["download_single_dataset"; "convert_vjepa2ac_single_dataset";
                 "convert_droid_single_dataset"] -> json_file = single_json) /\
  (In test_case ["download_multi_datasets"; "convert_vjepa2ac_multi_datasets";
                 "convert_droid_multi_datasets"] -> json_file = multi_json) /\
  ((String.prefix "download_" test_case = true /\
    TestSetup.command test_case test_folder json_file
    = Some ("lerobotlab download " +:+ PyPath.to_str json_file +:+ " --download-path "
            +:+ PyPath.to_str test_folder +:+ "/download --verbose")) \/
   (exists format folder c,
      validate_format format = inr format /\
      _get_converter format true = inr c /\
      TestSetup.command test_case test_folder json_file
      = Some ("lerobotlab convert " +:+ PyPath.to_str json_file +:+ " --output-path "
              +:+ PyPath.to_str test_folder +:+ "/" +:+ folder +:+ " --format "
              +:+ format +:+ " --verbose"))).
Proof.
  intros Hin json_file. subst json_file. simpl in Hin.
  destruct Hin as [<- | [<- | [<- | [<- | [<- | [<- | []]]]]]];
    (split;
     [intros H;
      first [reflexivity
            | simpl in H; repeat (destruct H as [H | H]; [discriminate H |]);
              contradiction]
     | split;
       [intros H;
        first [reflexivity
              | simpl in H; repeat (destruct H as [H | H]; [discriminate H |]);
                contradiction]
       | first
           [ left; split; reflexivity
           | right; exists "vjepa2-ac", "vjepa2_ac", (VJEPA2ACConverter true);
             repeat split; reflexivity
           | right; exists "droid", "droid", (DROIDConverter true);
             repeat split; reflexivity ]]]).
Qed.

Lemma test_case_commands_use_supported_formats_witness :
  fst (TestSetup.json_file_of "convert_vjepa2ac_multi_datasets"
         (Path "" ["test_env"; "single_dataset.json"])
         (Path "" ["test_env"; "multi_datasets.json"]))
  = Path "" ["test_env"; "multi_datasets.json"].
Proof.
  apply (proj1 (proj2 (test_case_commands_use_supported_formats
                         "convert_vjepa2ac_multi_datasets" (Path "" ["test_env"])
                         (Path "" ["test_env"; "single_dataset.json"])
                         (Path "" ["test_env"; "multi_datasets.json"])
                         ltac:(simpl; auto 10)))).
  simpl. auto.
Defined.
